(** * Render-task dispatch service (app.py): embedding and properties

    The service keeps two SQL tables, [render_task] and [worker], and
    exposes HTTP handlers that read and write them through an ORM
    session.  The embedding below keeps:

    - each table as the list of its rows in storage (insertion) order;
      an ORM object is a row position, so an attribute write is a list
      update at that position;
    - the session as a pair of the committed database and the working
      copy the handler writes to; [commit] publishes the working copy;
    - a handler as a computation in a state-and-exception monad over
      the session; a handler that raises never reaches its [commit], and
      the working copy is dropped when the request ends;
    - clock readings ([datetime.now()]) and fresh identifiers
      ([uuid.uuid4()]) as explicit inputs of the handler that asks for
      them. *)

From Stdlib Require Import ZArith QArith.
From stdpp Require Import base decidable option list sets relations strings.

Local Open Scope string_scope.
Local Open Scope list_scope.
Local Open Scope Z_scope.

(** ** Data model *)

(** [PRIORITY = ['RUSH', 'HIGH', 'MEDIUM', 'LOW']] *)
Definition PRIORITY : list string := ["RUSH"; "HIGH"; "MEDIUM"; "LOW"].

(** [class RenderTask(db.Model)].  Timestamps are seconds on the wall
    clock; [progress] is a JSON number stored as it arrives. *)
Module RenderTask.
Record t : Type := mk {
  id : string;
  status : string;
  priority : string;
  progress : Q;
  created_at : Z;
  updated_at : Z;
  worker_id : option string
}.

Definition set_status (v : string) (r : t) : t :=
  mk (id r) v (priority r) (progress r) (created_at r) (updated_at r) (worker_id r).
Definition set_progress (v : Q) (r : t) : t :=
  mk (id r) (status r) (priority r) v (created_at r) (updated_at r) (worker_id r).
Definition set_worker_id (v : option string) (r : t) : t :=
  mk (id r) (status r) (priority r) (progress r) (created_at r) (updated_at r) v.
End RenderTask.

(** [class Worker(db.Model)].  [last_heartbeat] is nullable and is
    written [None] by [update_worker_status]. *)
Module Worker.
Record t : Type := mk {
  id : string;
  status : string;
  last_heartbeat : option Z;
  current_task_id : option string
}.

Definition set_status (v : string) (r : t) : t :=
  mk (id r) v (last_heartbeat r) (current_task_id r).
Definition set_last_heartbeat (v : option Z) (r : t) : t :=
  mk (id r) (status r) v (current_task_id r).
Definition set_current_task_id (v : option string) (r : t) : t :=
  mk (id r) (status r) (last_heartbeat r) v.
End Worker.

(** The two tables. *)
Record DB : Type := mkDB {
  tasks : list RenderTask.t;
  workers : list Worker.t
}.

Definition empty_db : DB := mkDB [] [].

(** Column defaults of [RenderTask]: [default=datetime.now()] is
    evaluated once, when the class body runs, so every task inserted by
    one process carries the same two values. *)
Record ColumnDefaults : Type := mkDefaults {
  default_created_at : Z;
  default_updated_at : Z
}.

(** ** Session monad *)

Record Session : Type := mkSession {
  committed : DB;
  working : DB
}.

Inductive Exn : Type :=
| TypeError        (* [datetime()] called without its required arguments *)
| IntegrityError.  (* primary key already present at flush *)

Inductive Res (A : Type) : Type :=
| Ok (a : A) (s : Session)
| Raise (e : Exn) (s : Session).
Arguments Ok {A} a s.
Arguments Raise {A} e s.

Definition M (A : Type) : Type := Session → Res A.

#[global] Instance M_ret : MRet M := λ A a s, Ok a s.
#[global] Instance M_bind : MBind M := λ A B f m s,
  match m s with
  | Ok a s' => f a s'
  | Raise e s' => Raise e s'
  end.

#[global] Instance M_fmap : FMap M := λ A B f m, a ← m; mret (f a).

Definition raise {A} (e : Exn) : M A := λ s, Raise e s.

Definition read_tasks : M (list RenderTask.t) := λ s, Ok (tasks (working s)) s.
Definition read_workers : M (list Worker.t) := λ s, Ok (workers (working s)) s.

(** [db.session.add(row)] *)
Definition add_task (r : RenderTask.t) : M unit := λ s,
  Ok tt (mkSession (committed s)
           (mkDB (tasks (working s) ++ [r]) (workers (working s)))).
Definition add_worker (r : Worker.t) : M unit := λ s,
  Ok tt (mkSession (committed s)
           (mkDB (tasks (working s)) (workers (working s) ++ [r]))).

(** [db.session.commit()]: the flush fails when a primary key occurs
    twice; the transaction is then rolled back. *)
Definition keys_unique (d : DB) : bool :=
  bool_decide (NoDup (RenderTask.id <$> tasks d)) &&
  bool_decide (NoDup (Worker.id <$> workers d)).

Definition commit : M unit := λ s,
  if keys_unique (working s)
  then Ok tt (mkSession (working s) (working s))
  else Raise IntegrityError (mkSession (committed s) (committed s)).

(** ** Queries *)

(** A row together with its position in the table. *)
Definition indexed {A} (l : list A) : list (nat * A) := imap (λ i x, (i, x)) l.

(** [.first()] *)
Definition first {A} (l : list A) : option A := head l.

(** [db.session.get(Model, key)]: the row with that primary key. *)
Definition find_by {A} (key_of : A → string) (key : string)
    (rows : list A) : option (nat * A) :=
  first (filter (λ p, key_of p.2 = key) (indexed rows)).

Definition get_task (key : string) : M (option (nat * RenderTask.t)) :=
  rows ← read_tasks;
  mret (find_by RenderTask.id key rows).
Definition get_worker (key : string) : M (option (nat * Worker.t)) :=
  rows ← read_workers;
  mret (find_by Worker.id key rows).

(** Column comparisons on [RenderTask] as the ORM builds them. *)
Inductive Clause : Type :=
| status_eq (v : string)      (* [RenderTask.status == v] *)
| worker_id_eq (v : string).  (* [RenderTask.worker_id == v] *)

(** Row-wise meaning of a clause in the WHERE part of a query; a NULL
    [worker_id] equals nothing. *)
Definition holds (c : Clause) (r : RenderTask.t) : bool :=
  match c with
  | status_eq v => bool_decide (RenderTask.status r = v)
  | worker_id_eq v => bool_decide (RenderTask.worker_id r = Some v)
  end.

(** Truth value Python gives a clause object.  For an [==] comparison
    the ORM answers by comparing the identities of its two operands,
    here a column and a bound literal, which are never the same
    object. *)
Definition py_bool (c : Clause) : bool := false.

(** Python's [a and b]: [a] when [a] is falsy, otherwise [b]. *)
Definition py_and (a b : Clause) : Clause := if py_bool a then b else a.

(** [RenderTask.query.filter(c)], rows in storage order. *)
Definition select_tasks (c : Clause)
    (rows : list RenderTask.t) : list (nat * RenderTask.t) :=
  filter (λ p, holds c p.2 = true) (indexed rows).

Definition query_tasks (c : Clause) : M (list (nat * RenderTask.t)) :=
  rows ← read_tasks;
  mret (select_tasks c rows).

(** [ordering = case({value: index for index, value in
    enumerate(PRIORITY)}, value=RenderTask.priority)]: the position of
    the priority in [PRIORITY], NULL when it is not listed. *)
Fixpoint case_when (whens : list (string * nat)) (v : string) : option nat :=
  match whens with
  | [] => None
  | (value, index) :: rest =>
      if bool_decide (v = value) then Some index else case_when rest v
  end.

Definition enumerate {A} (l : list A) : list (A * nat) := imap (λ i x, (x, i)) l.

Definition ordering (r : RenderTask.t) : option nat :=
  case_when (enumerate PRIORITY) (RenderTask.priority r).

(** Ascending order on sort keys; SQLite puts NULL before any value. *)
Definition key_le (a b : option nat) : bool :=
  match a, b with
  | None, _ => true
  | Some _, None => false
  | Some x, Some y => bool_decide (x ≤ y)%nat
  end.

(** [.order_by(key)].  SQL leaves the order among rows with equal keys
    open; here they keep their storage order, as a scan of the table
    followed by a stable sort yields them. *)
Fixpoint insert_by {A} (key : A → option nat) (x : A) (l : list A) : list A :=
  match l with
  | [] => [x]
  | y :: l' => if key_le (key x) (key y) then x :: y :: l'
               else y :: insert_by key x l'
  end.

Definition order_by {A} (key : A → option nat) (l : list A) : list A :=
  foldr (insert_by key) [] l.

(** [RenderTask.query.filter(RenderTask.status == 'pending')
    .order_by(ordering).first()], the task the dispatcher takes. *)
Definition next_pending (rows : list RenderTask.t) : option (nat * RenderTask.t) :=
  first (order_by (λ p, ordering p.2) (select_tasks (status_eq "pending") rows)).

(** [Worker.query.filter(p)], rows in storage order. *)
Definition select_workers (p : Worker.t → bool)
    (rows : list Worker.t) : list (nat * Worker.t) :=
  filter (λ q, p q.2 = true) (indexed rows).

Definition query_workers (p : Worker.t → bool) : M (list (nat * Worker.t)) :=
  rows ← read_workers;
  mret (select_workers p rows).

(** [obj.attr = v] on the task, respectively worker, loaded from
    position [i]. *)
Definition task_set (i : nat) (f : RenderTask.t → RenderTask.t) : M unit := λ s,
  Ok tt (mkSession (committed s)
           (mkDB (alter f i (tasks (working s))) (workers (working s)))).
Definition worker_set (i : nat) (f : Worker.t → Worker.t) : M unit := λ s,
  Ok tt (mkSession (committed s)
           (mkDB (tasks (working s)) (alter f i (workers (working s))))).

(** [datetime()]: the class takes [year], [month] and [day] as required
    arguments, so the call without arguments raises [TypeError]. *)
Definition datetime : M Z := raise TypeError.

(** ** Responses *)

Inductive Body : Type :=
| error (msg : string)                       (* [{'error': msg}] *)
| message (msg : string)                     (* [{'message': msg}] *)
| task_queued (task_id : string)             (* [{'task_id': .., 'status': 'Task added to queue'}] *)
| task_assigned (task_id : string)           (* [{'task_id': .., 'status': 'Task assigned to worker'}] *)
| task_list (l : list (string * string * string * Q))
| task_info (id status priority : string) (progress : Q) (created_at updated_at : Z)
| worker_list (l : list (string * string * option Z))
| status_message (status msg : string)       (* [{'status': .., 'message': ..}] *)
| status_progress (status : string) (progress : Q)
| status_only (status : string).

(** A body and its HTTP status code. *)
Definition Response : Type := Body * Z.

(** [jsonify(body)] returned alone is sent with code 200. *)
Definition jsonify (b : Body) : Response := (b, 200).

(** ** Handlers *)

(** [POST /api/renders]; [priority] is the field of the request body,
    [None] when it is absent. *)
Definition create_render (defaults : ColumnDefaults) (uuid4 : string)
    (priority : option string) : M Response :=
  let task_id := uuid4 in
  let priority := default "MEDIUM" priority in
  if bool_decide (priority ∉ PRIORITY) then mret (error "Invalid priority", 400)
  else
    let new_task :=
      RenderTask.mk task_id "pending" priority 0
        (default_created_at defaults) (default_updated_at defaults) None in
    add_task new_task;;
    commit;;
    mret (task_queued task_id, 201).

(** [GET /api/renders] *)
Definition get_renders : M Response :=
  tasks ← read_tasks;
  let task_list_ :=
    (λ task, (RenderTask.id task, RenderTask.status task,
              RenderTask.priority task, RenderTask.progress task)) <$> tasks in
  mret (jsonify (task_list task_list_)).

(** [GET /api/renders/<task_id>] *)
Definition get_render_status (task_id : string) : M Response :=
  task ← get_task task_id;
  match task with
  | None => mret (error "Task not found", 404)
  | Some (_, task) =>
      mret (jsonify (task_info (RenderTask.id task) (RenderTask.status task)
                       (RenderTask.priority task) (RenderTask.progress task)
                       (RenderTask.created_at task) (RenderTask.updated_at task)))
  end.

(** [GET /api/workers] *)
Definition get_workers : M Response :=
  workers ← read_workers;
  let worker_list_ :=
    (λ worker, (Worker.id worker, Worker.status worker,
                Worker.last_heartbeat worker)) <$> workers in
  mret (jsonify (worker_list worker_list_)).

(** [POST /api/workers/<worker_id>/request-task]; [now] is the clock
    read by [datetime.now()] and [uuid4] the identifier drawn for a new
    worker. *)
Definition worker_request_task (now : Z) (uuid4 : string)
    (worker_id : string) : M Response :=
  ready ← query_workers (λ w, bool_decide (Worker.status w = "Ready"));
  let noWorkers := length ready in
  rendering ← query_tasks (py_and (status_eq "rendering") (worker_id_eq worker_id));
  match first rendering with
  | Some _ => mret (message "Task is processing", 404)
  | None =>
      worker_id ←
        (if bool_decide (noWorkers = 0%nat) then
           let worker_id := uuid4 in
           let new_worker := Worker.mk worker_id "Ready" (Some now) None in
           add_worker new_worker;;
           commit;;
           mret worker_id
         else mret worker_id);
      worker ← get_worker worker_id;
      match worker with
      | None => mret (error "Worker not found", 404)
      | Some (j, _) =>
          pending ← query_tasks (status_eq "pending");
          match first (order_by (λ p, ordering p.2) pending) with
          | None => mret (message "No available tasks", 404)
          | Some (i, task) =>
              task_set i (RenderTask.set_status "rendering");;
              task_set i (RenderTask.set_worker_id (Some worker_id));;
              worker_set j (Worker.set_status "Busy");;
              worker_set j (Worker.set_current_task_id (Some (RenderTask.id task)));;
              commit;;
              mret (jsonify (task_assigned (RenderTask.id task)))
          end
      end
  end.

(** [POST /api/workers/<worker_id>/status]; [status] is the field of
    the request body. *)
Definition update_worker_status (worker_id : string)
    (status : option string) : M Response :=
  worker ← get_worker worker_id;
  match worker with
  | None => mret (error "Worker not found", 404)
  | Some (j, _) =>
      match status with
      | None => mret (error "Invalid status", 400)
      | Some status =>
          if bool_decide (status ∉ ["Ready"; "Busy"; "Offline"])
          then mret (error "Invalid status", 400)
          else
            worker_set j (Worker.set_status status);;
            last_heartbeat ←
              (if bool_decide (status ≠ "Offline") then Some <$> datetime
               else mret None);
            worker_set j (Worker.set_last_heartbeat last_heartbeat);;
            commit;;
            mret (jsonify (status_message status "Worker status updated"))
      end
  end.

(** Python truth of an optional string: absent and empty are falsy. *)
Definition truthy (s : option string) : bool :=
  match s with
  | None => false
  | Some v => negb (bool_decide (v = ""))
  end.

(** [POST /api/renders/<task_id>/status] *)
Definition update_render_status (task_id : string) (status : option string)
    (progress : option Q) : M Response :=
  task ← get_task task_id;
  match task with
  | None => mret (error "Task not found", 404)
  | Some (i, task0) =>
      (if truthy status
       then task_set i (RenderTask.set_status (default "" status))
       else mret tt);;
      match progress with
      | Some p => task_set i (RenderTask.set_progress p)
      | None => mret tt
      end;;
      updated_at ← datetime;
      task_set i (λ r, RenderTask.mk (RenderTask.id r) (RenderTask.status r)
                         (RenderTask.priority r) (RenderTask.progress r)
                         (RenderTask.created_at r) updated_at
                         (RenderTask.worker_id r));;
      commit;;
      rows ← read_tasks;
      let task := default task0 (rows !! i) in
      mret (jsonify (status_progress (RenderTask.status task)
                       (RenderTask.progress task)))
  end.

(** [POST /api/renders/<task_id>/complete] *)
Definition complete_render (task_id : string) : M Response :=
  task ← get_task task_id;
  match task with
  | None => mret (error "Task not found", 404)
  | Some (i, _) =>
      task_set i (RenderTask.set_status "Completed");;
      updated_at ← datetime;
      task_set i (λ r, RenderTask.mk (RenderTask.id r) (RenderTask.status r)
                         (RenderTask.priority r) (RenderTask.progress r)
                         (RenderTask.created_at r) updated_at
                         (RenderTask.worker_id r));;
      commit;;
      mret (jsonify (status_message "Completed" "Render task completed successfully"))
  end.

(** [POST /api/workers/<worker_id>/heartbeat] *)
Definition worker_heartbeat (worker_id : string) : M Response :=
  worker ← get_worker worker_id;
  match worker with
  | None => mret (error "Worker not found", 404)
  | Some (j, _) =>
      last_heartbeat ← datetime;
      worker_set j (Worker.set_last_heartbeat (Some last_heartbeat));;
      commit;;
      mret (jsonify (status_only "Heartbeat received"))
  end.

(** ** Liveness sweep *)

(** [Worker.last_heartbeat < datetime.now() - timedelta(seconds=30)];
    a NULL heartbeat compares as unknown and is filtered out. *)
Definition heartbeat_expired (now : Z) (w : Worker.t) : bool :=
  match Worker.last_heartbeat w with
  | Some hb => bool_decide (hb < now - 30)
  | None => false
  end.

(** The loop [for worker in failed_workers: worker_request_task(worker.id)];
    [env k] gives the clock reading and the identifier available to
    the [k]-th call. *)
Fixpoint for_failed_workers (env : nat → Z * string) (k : nat)
    (failed_workers : list (nat * Worker.t)) : M unit :=
  match failed_workers with
  | [] => mret tt
  | (_, worker) :: rest =>
      worker_request_task (env k).1 (env k).2 (Worker.id worker);;
      for_failed_workers env (S k) rest
  end.

(** [check_worker_failures()], one pass of [worker_loop]. *)
Definition check_worker_failures (now : Z) (env : nat → Z * string) : M unit :=
  failed_workers ← query_workers (heartbeat_expired now);
  match failed_workers with
  | [] => worker_request_task (env 0%nat).1 (env 0%nat).2 "";; mret tt
  | _ => for_failed_workers env 0 failed_workers
  end.

(** ** Running a handler against the database *)

Inductive Outcome : Type :=
| Replied (r : Response)
| Uncaught (e : Exn).   (* the framework answers with code 500 *)

(** A request opens a session on the committed database, runs the
    handler and drops the session; only what was committed remains. *)
Definition open_session (d : DB) : Session := mkSession d d.

Definition outcome_of (r : Res Response) : Outcome * DB :=
  match r with
  | Ok r s => (Replied r, committed s)
  | Raise e s => (Uncaught e, committed s)
  end.

Definition serve (h : M Response) (d : DB) : Outcome * DB :=
  outcome_of (h (open_session d)).

(** One pass of the background loop. *)
Definition sweep (now : Z) (env : nat → Z * string) (d : DB) : DB :=
  match check_worker_failures now env (open_session d) with
  | Ok _ s => committed s
  | Raise _ s => committed s
  end.

(** The operations of the service. *)
Inductive Op : Type :=
| SubmitTask (defaults : ColumnDefaults) (uuid4 : string) (priority : option string)
| ListTasks
| GetTask (task_id : string)
| ListWorkers
| RequestTask (now : Z) (uuid4 : string) (worker_id : string)
| UpdateWorkerStatus (worker_id : string) (status : option string)
| UpdateStatus (task_id : string) (status : option string) (progress : option Q)
| CompleteTask (task_id : string)
| Heartbeat (worker_id : string).

Definition handler (op : Op) : M Response :=
  match op with
  | SubmitTask defaults uuid4 priority => create_render defaults uuid4 priority
  | ListTasks => get_renders
  | GetTask task_id => get_render_status task_id
  | ListWorkers => get_workers
  | RequestTask now uuid4 worker_id => worker_request_task now uuid4 worker_id
  | UpdateWorkerStatus worker_id status => update_worker_status worker_id status
  | UpdateStatus task_id status progress => update_render_status task_id status progress
  | CompleteTask task_id => complete_render task_id
  | Heartbeat worker_id => worker_heartbeat worker_id
  end.

Definition step (op : Op) (d : DB) : Outcome * DB := serve (handler op) d.

(** States the service can be in: the empty database, then any
    interleaving of requests and sweeps. *)
Inductive reachable : DB → Prop :=
| reachable_init : reachable empty_db
| reachable_step op d : reachable d → reachable (step op d).2
| reachable_sweep now env d : reachable d → reachable (sweep now env d).

(** ** Sample databases *)

Definition task_row (id status priority : string) (created : Z)
    (worker : option string) : RenderTask.t :=
  RenderTask.mk id status priority 0 created created worker.

Definition t1_rendering : RenderTask.t := task_row "t1" "rendering" "HIGH" 5 (Some "w1").
Definition w1_busy : Worker.t := Worker.mk "w1" "Busy" (Some 0) (Some "t1").
Definition w2_offline : Worker.t := Worker.mk "w2" "Offline" None None.
Definition w2_ready : Worker.t := Worker.mk "w2" "Ready" (Some 90) None.

(** [w1] renders [t1]; [t2] waits; [w2] is registered and holds nothing. *)
Definition db_busy : DB :=
  mkDB [t1_rendering; task_row "t2" "pending" "LOW" 6 None] [w2_offline; w1_busy].

(** Two waiting tasks of one priority, the later-created one stored
    first: the second was submitted by a process whose class body read
    an earlier wall-clock time. *)
Definition db_ties : DB :=
  mkDB [task_row "tA" "pending" "MEDIUM" 20 None;
        task_row "tB" "pending" "MEDIUM" 10 None]
       [w2_ready].

(** A registry whose only worker has been switched off. *)
Definition db_offline : DB := mkDB [] [Worker.mk "w1" "Offline" None None].

(** ** Notions used in the statements *)

(** The effect on an indexed row of writing [f] to the row at [i]. *)
Definition at_row {A} (f : A → A) (i : nat) (p : nat * A) : nat * A :=
  (p.1, if decide (p.1 = i) then f p.2 else p.2).

(** The stored names of the task statuses Pending and Assigned, and of
    the worker status Ready. *)
Definition is_pending (t : RenderTask.t) : Prop := RenderTask.status t = "pending".
Definition is_rendering (t : RenderTask.t) : Prop := RenderTask.status t = "rendering".

Definition is_ready (w : Worker.t) : bool := bool_decide (Worker.status w = "Ready").

(** The database after the handler has added and committed a new worker. *)
Definition registered (now : Z) (uuid4 : string) (d : DB) : DB :=
  mkDB (tasks d) (workers d ++ [Worker.mk uuid4 "Ready" (Some now) None]).

(** The database after the four attribute writes that bind task [i] to
    worker [j]. *)
Definition bound (i j : nat) (worker_id : string) (task : RenderTask.t) (d : DB) : DB :=
  mkDB (alter (RenderTask.set_worker_id (Some worker_id)) i
          (alter (RenderTask.set_status "rendering") i (tasks d)))
       (alter (Worker.set_current_task_id (Some (RenderTask.id task))) j
          (alter (Worker.set_status "Busy") j (workers d))).

(** The handler from the worker lookup on. *)
Definition dispatch (worker_id : string) (d : DB) : Res Response :=
  match find_by Worker.id worker_id (workers d) with
  | None => Ok (error "Worker not found", 404) (open_session d)
  | Some (j, _) =>
      match next_pending (tasks d) with
      | None => Ok (message "No available tasks", 404) (open_session d)
      | Some (i, task) =>
          if keys_unique (bound i j worker_id task d)
          then Ok (jsonify (task_assigned (RenderTask.id task)))
                  (open_session (bound i j worker_id task d))
          else Raise IntegrityError (open_session d)
      end
  end.

(** The database after a worker has been switched off. *)
Definition switched_off (j : nat) (d : DB) : DB :=
  mkDB (tasks d)
       (alter (Worker.set_last_heartbeat None) j
          (alter (Worker.set_status "Offline") j (workers d))).

(** The session a computation ends with. *)
Definition res_session {A} (r : Res A) : Session :=
  match r with Ok _ s => s | Raise _ s => s end.

(** A run of requests, one after the other. *)
Definition run_ops (ops : list Op) (d : DB) : DB :=
  foldl (λ d op, (step op d).2) d ops.

Definition is_request (op : Op) : Prop :=
  match op with RequestTask _ _ _ => True | _ => False end.

(** A rendering task names a worker whose record points back at it; any
    other task names no worker. *)
Definition paired (d : DB) (t : RenderTask.t) : Prop :=
  (is_rendering t →
     ∃ w j wk, RenderTask.worker_id t = Some w ∧
       find_by Worker.id w (workers d) = Some (j, wk) ∧
       Worker.current_task_id wk = Some (RenderTask.id t)) ∧
  (¬ is_rendering t → RenderTask.worker_id t = None).

Definition consistent (d : DB) : Prop := ∀ t, t ∈ tasks d → paired d t.

(** The dispatch rule as the specification words it: the task handed out
    is a waiting task of the best rank and, among waiting tasks of its
    priority, the earliest created. *)
Definition fifo_within_band : Prop :=
  ∀ d now uuid4 worker_id tid d',
    step (RequestTask now uuid4 worker_id) d
      = (Replied (jsonify (task_assigned tid)), d') →
    ∃ t, t ∈ tasks d ∧ RenderTask.id t = tid ∧ is_pending t ∧
      (∀ u, u ∈ tasks d → is_pending u →
         key_le (ordering t) (ordering u) = true) ∧
      (∀ u, u ∈ tasks d → is_pending u →
         RenderTask.priority u = RenderTask.priority t →
         RenderTask.created_at t ≤ RenderTask.created_at u).

(** A state reached by submitting a task and requesting it. *)
Definition db_after_dispatch : DB :=
  (step (RequestTask 10 "w-1" "")
     (step (SubmitTask (mkDefaults 0 0) "t-1" (Some "RUSH")) empty_db).2).2.

Definition t_dispatched : RenderTask.t :=
  RenderTask.mk "t-1" "rendering" "RUSH" 0 0 0 (Some "w-1").

(** Completion as the specification words it: the task becomes
    [Completed] and its worker becomes [Ready] with no current task. *)
Definition complete_releases_worker : Prop :=
  ∀ d t w, t ∈ tasks d → is_rendering t → RenderTask.worker_id t = Some w →
    let d' := (step (CompleteTask (RenderTask.id t)) d).2 in
    (∃ i t', find_by RenderTask.id (RenderTask.id t) (tasks d') = Some (i, t') ∧
       RenderTask.status t' = "Completed") ∧
    (∃ j wk, find_by Worker.id w (workers d') = Some (j, wk) ∧
       Worker.status wk = "Ready" ∧ Worker.current_task_id wk = None).

(** The task statuses of the specification, under the names the service
    stores. *)
Definition recognized_status (s : string) : Prop :=
  s ∈ ["pending"; "rendering"; "Completed"; "Failed"].

(** Validation as the specification words it: an unrecognized status or
    a progress outside [0,1] is rejected as an invalid argument and
    nothing is changed. *)
Definition update_status_validates : Prop :=
  ∀ d task_id status progress,
    is_Some (find_by RenderTask.id task_id (tasks d)) →
    (∃ s, status = Some s ∧ ¬ recognized_status s) ∨
    (∃ p, progress = Some p ∧ ¬ (0 <= p ∧ p <= 1)%Q) →
    ∃ msg, step (UpdateStatus task_id status progress) d
           = (Replied (error msg, 400), d).

(** An error reply: a 4xx or 5xx status code. *)
Definition rejected (o : Outcome) : Prop :=
  ∃ b code, o = Replied (b, code) ∧ 400 ≤ code.

(** A call that did not succeed: rejected, or ended by an exception. *)
Definition failed (o : Outcome) : Prop :=
  match o with
  | Replied (_, code) => 400 ≤ code
  | Uncaught _ => True
  end.

(** Atomicity as the specification words it: an operation that returns
    an error leaves both tables as they were. *)
Definition error_changes_nothing : Prop :=
  ∀ op d, rejected (step op d).1 → (step op d).2 = d.

(** The empty-queue report as the specification words it: with no
    waiting task the request is answered "no task available" and no
    record is changed. *)
Definition no_task_report_is_silent : Prop :=
  ∀ d now uuid4 worker_id,
    (∀ t, t ∈ tasks d → ¬ is_pending t) →
    ∃ code, step (RequestTask now uuid4 worker_id) d
            = (Replied (message "No available tasks", code), d).

(** A LOW task submitted before a RUSH task. *)
Definition db_after_rush : DB :=
  (step (SubmitTask (mkDefaults 9 9) "tR" (Some "RUSH"))
     (step (SubmitTask (mkDefaults 8 8) "tL" (Some "LOW")) empty_db).2).2.

(** One waiting task; the only worker has been switched off. *)
Definition db_offline_queue : DB :=
  mkDB [task_row "t5" "pending" "LOW" 4 None] [Worker.mk "w1" "Offline" None None].

(** Two waiting tasks and a Ready worker registered at time 0. *)
Definition db_stale : DB :=
  mkDB [task_row "t6" "pending" "LOW" 2 None; task_row "t7" "pending" "HIGH" 3 None]
       [Worker.mk "w1" "Ready" (Some 0) None].

(** The priority bands in the order the specification gives them: RUSH
    before HIGH before MEDIUM before LOW; a priority outside the four
    has no band. *)
Definition band (priority : string) : option nat :=
  if bool_decide (priority = "RUSH") then Some 0%nat
  else if bool_decide (priority = "HIGH") then Some 1%nat
  else if bool_decide (priority = "MEDIUM") then Some 2%nat
  else if bool_decide (priority = "LOW") then Some 3%nat
  else None.

(** A LOW task stored before two HIGH tasks, the second HIGH task
    created before the first; one Ready worker. *)
Definition db_bands : DB :=
  mkDB [task_row "tL" "pending" "LOW" 1 None;
        task_row "tH1" "pending" "HIGH" 9 None;
        task_row "tH2" "pending" "HIGH" 5 None]
       [w2_ready].

(** ** Committed changes *)

(** The database after [create_render] has added and committed a task. *)
Definition submitted (defaults : ColumnDefaults) (uuid4 priority : string)
    (d : DB) : DB :=
  mkDB (tasks d ++ [RenderTask.mk uuid4 "pending" priority 0
                      (default_created_at defaults)
                      (default_updated_at defaults) None])
       (workers d).

(** The two commits of [worker_request_task]: the registration of a
    worker and the binding of a task, each with what the handler has
    checked before it. *)
Inductive request_commit : DB → DB → Prop :=
| rc_register d now uuid4 :
    (∀ x, x ∈ tasks d → ¬ is_rendering x) →
    select_workers is_ready (workers d) = [] →
    keys_unique (registered now uuid4 d) = true →
    request_commit d (registered now uuid4 d)
| rc_bind d i j w t wk :
    (∀ x, x ∈ tasks d → ¬ is_rendering x) →
    find_by Worker.id w (workers d) = Some (j, wk) →
    next_pending (tasks d) = Some (i, t) →
    keys_unique (bound i j w t d) = true →
    request_commit d (bound i j w t d).

(** Every commit any handler performs. *)
Inductive commit_step : DB → DB → Prop :=
| cs_submit d defaults uuid4 priority :
    priority ∈ PRIORITY →
    keys_unique (submitted defaults uuid4 priority d) = true →
    commit_step d (submitted defaults uuid4 priority d)
| cs_off d w j wk :
    find_by Worker.id w (workers d) = Some (j, wk) →
    keys_unique (switched_off j d) = true →
    commit_step d (switched_off j d)
| cs_request d d' : request_commit d d' → commit_step d d'.

(** What no commit changes in a task row. *)
Definition same_task_data (t t' : RenderTask.t) : Prop :=
  RenderTask.id t' = RenderTask.id t ∧
  RenderTask.priority t' = RenderTask.priority t ∧
  RenderTask.progress t' = RenderTask.progress t ∧
  RenderTask.created_at t' = RenderTask.created_at t ∧
  RenderTask.updated_at t' = RenderTask.updated_at t.

(** How a commit may change a worker row: the identifier stays, the
    heartbeat stays or is cleared, the status stays or becomes Busy or
    Offline. *)
Definition worker_evolves (w w' : Worker.t) : Prop :=
  Worker.id w' = Worker.id w ∧
  (Worker.last_heartbeat w' = Worker.last_heartbeat w ∨
   Worker.last_heartbeat w' = None) ∧
  (Worker.status w' = Worker.status w ∨ Worker.status w' = "Busy" ∨
   Worker.status w' = "Offline").

(** The narrower change a task request may make to a worker row. *)
Definition worker_kept_alive (w w' : Worker.t) : Prop :=
  Worker.id w' = Worker.id w ∧
  Worker.last_heartbeat w' = Worker.last_heartbeat w ∧
  (Worker.status w' = Worker.status w ∨ Worker.status w' = "Busy").

(** The pairing seen from the worker: a busy worker names a task, and a
    task named by a worker is rendering for that worker. *)
Definition worker_paired (d : DB) (wk : Worker.t) : Prop :=
  (Worker.status wk = "Busy" → is_Some (Worker.current_task_id wk)) ∧
  (∀ tid, Worker.current_task_id wk = Some tid →
     ∃ i t, tasks d !! i = Some t ∧ RenderTask.id t = tid ∧
       is_rendering t ∧ RenderTask.worker_id t = Some (Worker.id wk)).

(** ** Facts about the query primitives *)

Section ListFacts.
Context {A : Type}.

Lemma indexed_lookup (l : list A) (k : nat) :
  indexed l !! k = (λ x, (k, x)) <$> l !! k.
Proof. unfold indexed. apply list_lookup_imap. Qed.

Lemma elem_of_indexed (l : list A) (i : nat) (x : A) :
  (i, x) ∈ indexed l ↔ l !! i = Some x.
Proof.
  rewrite list_elem_of_lookup. split.
  - intros [k Hk]. rewrite indexed_lookup in Hk.
    destruct (l !! k) eqn:E; simpl in Hk; congruence.
  - intros H. exists i. rewrite indexed_lookup, H. reflexivity.
Qed.

(** Positions grow along [indexed]. *)
Lemma indexed_split (l : list A) l1 l2 (i : nat) (x : A) :
  indexed l = l1 ++ (i, x) :: l2 →
  l !! i = Some x ∧
  (∀ i' y, (i', y) ∈ l1 → (i' < i)%nat) ∧
  (∀ i' y, (i', y) ∈ l2 → (i < i')%nat).
Proof.
  intros Hsplit.
  assert (Hlen : length l1 = i).
  { pose proof (indexed_lookup l (length l1)) as Hk.
    rewrite Hsplit, list_lookup_middle in Hk by reflexivity.
    destruct (l !! length l1); simpl in Hk; congruence. }
  split; [|split].
  - apply elem_of_indexed. rewrite Hsplit. set_solver.
  - intros i' y Hin. apply list_elem_of_lookup in Hin as [k Hk].
    pose proof (lookup_lt_Some _ _ _ Hk) as Hlt.
    pose proof (indexed_lookup l k) as Hl.
    rewrite Hsplit, lookup_app_l, Hk in Hl by exact Hlt.
    destruct (l !! k); simpl in Hl; [|congruence].
    injection Hl as -> _. lia.
  - intros i' y Hin. apply list_elem_of_lookup in Hin as [k Hk].
    pose proof (indexed_lookup l (length l1 + S k)) as Hl.
    rewrite Hsplit, lookup_app_r in Hl by lia.
    replace (length l1 + S k - length l1)%nat with (S k) in Hl by lia.
    simpl in Hl. rewrite Hk in Hl.
    destruct (l !! (length l1 + S k)%nat); simpl in Hl; [|congruence].
    injection Hl as -> _. lia.
Qed.

Lemma filter_split (P : A → Prop) `{!∀ x, Decision (P x)} (l l1 l2 : list A) x :
  filter P l = l1 ++ x :: l2 →
  ∃ l1' l2', l = l1' ++ x :: l2' ∧ filter P l1' = l1 ∧ filter P l2' = l2.
Proof.
  revert l1. induction l as [|a l IH]; intros l1 Hf.
  - destruct l1; discriminate.
  - rewrite filter_cons in Hf. destruct (decide (P a)) as [Pa|nPa].
    + destruct l1 as [|b l1]; simpl in Hf.
      * injection Hf as E1 E2. subst a. exists [], l. rewrite filter_nil. auto.
      * injection Hf as E1 E2. subst a.
        destruct (IH _ E2) as (l1' & l2' & -> & <- & <-).
        exists (b :: l1'), l2'. rewrite filter_cons_True by done. auto.
    + destruct (IH _ Hf) as (l1' & l2' & -> & <- & <-).
      exists (a :: l1'), l2'. rewrite filter_cons_False by done. auto.
Qed.

Lemma first_filter_None (P : A → Prop) `{!∀ x, Decision (P x)} (l : list A) :
  first (filter P l) = None ↔ ∀ x, x ∈ l → ¬ P x.
Proof.
  unfold first. rewrite head_None. split.
  - intros Hf x Hx Px. eapply filter_nil_not_elem_of; eauto.
  - intros Hf. induction l as [|a l IH]; [reflexivity|].
    rewrite filter_cons_False by (apply Hf; left).
    apply IH. intros x Hx. apply Hf. by right.
Qed.

Lemma first_filter_Some (P : A → Prop) `{!∀ x, Decision (P x)} (l : list A) x :
  first (filter P l) = Some x → x ∈ l ∧ P x.
Proof.
  unfold first. intros Hf. apply head_Some_elem_of in Hf.
  apply list_elem_of_filter in Hf. tauto.
Qed.
End ListFacts.

Section OrderBy.
Context {A : Type} (key : A → option nat).

Lemma key_le_refl a : key_le a a = true.
Proof. destruct a; simpl; [|done]. by apply bool_decide_eq_true. Qed.

Lemma key_le_total a b : key_le a b = false → key_le b a = true.
Proof.
  destruct a, b; simpl; try done.
  rewrite bool_decide_eq_false, bool_decide_eq_true. lia.
Qed.

Lemma key_le_trans a b c :
  key_le a b = true → key_le b c = true → key_le a c = true.
Proof.
  destruct a, b, c; simpl; try done.
  rewrite !bool_decide_eq_true. lia.
Qed.

Lemma first_insert_by x l :
  first (insert_by key x l) =
  match first l with
  | None => Some x
  | Some h => if key_le (key x) (key h) then Some x else Some h
  end.
Proof. destruct l as [|y l]; simpl; [done|]. by destruct (key_le _ _). Qed.

Lemma order_by_nil l : order_by key l = [] → l = [].
Proof.
  destruct l as [|a l]; [done|]. intros H.
  change (order_by key (a :: l)) with (insert_by key a (order_by key l)) in H.
  pose proof (first_insert_by a (order_by key l)) as Hf.
  rewrite H in Hf. simpl in Hf.
  destruct (first _); [destruct (key_le _ _)|]; discriminate.
Qed.

(** The head of the ordered list splits the input: strictly larger
    keys before it, keys at least as large after it. *)
Lemma first_order_by_split l x :
  first (order_by key l) = Some x →
  ∃ l1 l2, l = l1 ++ x :: l2 ∧
    (∀ y, y ∈ l1 → key_le (key y) (key x) = false) ∧
    (∀ y, y ∈ l2 → key_le (key x) (key y) = true).
Proof.
  revert x. induction l as [|a l IH]; intros x H; [discriminate|].
  change (order_by key (a :: l)) with (insert_by key a (order_by key l)) in H.
  rewrite first_insert_by in H.
  destruct (first (order_by key l)) as [h|] eqn:Hh.
  - destruct (IH h eq_refl) as (l1 & l2 & -> & Hl1 & Hl2).
    destruct (key_le (key a) (key h)) eqn:Hah; injection H as <-.
    + exists [], (l1 ++ h :: l2). split; [done|]. split; [set_solver|].
      intros y Hy. apply elem_of_app in Hy as [Hy|Hy].
      * eapply key_le_trans; [exact Hah|]. apply key_le_total. by apply Hl1.
      * apply elem_of_cons in Hy as [->|Hy]; [done|].
        eapply key_le_trans; [exact Hah|]. by apply Hl2.
    + exists (a :: l1), l2. split; [done|]. split; [|done].
      intros y Hy. apply elem_of_cons in Hy as [->|Hy]; [done|]. by apply Hl1.
  - injection H as <-. unfold first in Hh. apply head_None in Hh.
    apply order_by_nil in Hh as ->.
    exists [], []. set_solver.
Qed.

Lemma first_order_by_is_Some l : l ≠ [] → is_Some (first (order_by key l)).
Proof.
  destruct l as [|a l]; [done|]. intros _.
  change (order_by key (a :: l)) with (insert_by key a (order_by key l)).
  rewrite first_insert_by.
  destruct (first _); [destruct (key_le _ _)|]; eauto.
Qed.
End OrderBy.

(** ** Lookup by primary key *)

Section FindBy.
Context {A : Type} (key_of : A → string).

Lemma find_by_Some key rows j r :
  find_by key_of key rows = Some (j, r) →
  rows !! j = Some r ∧ key_of r = key.
Proof.
  unfold find_by. intros H. apply first_filter_Some in H as [Hin Hk].
  apply elem_of_indexed in Hin. done.
Qed.

Lemma find_by_None key rows :
  find_by key_of key rows = None ↔ ∀ r, r ∈ rows → key_of r ≠ key.
Proof.
  unfold find_by. rewrite first_filter_None. split.
  - intros H r Hr. apply list_elem_of_lookup in Hr as [i Hi].
    apply (H (i, r)). by apply elem_of_indexed.
  - intros H [i r] Hin. apply elem_of_indexed in Hin.
    apply H. apply list_elem_of_lookup. eauto.
Qed.

Lemma indexed_app (rows : list A) r :
  indexed (rows ++ [r]) = indexed rows ++ [(length rows, r)].
Proof.
  unfold indexed. rewrite imap_app. simpl. by rewrite Nat.add_0_r.
Qed.

(** A row added at the end is found only when no earlier row has the key. *)
Lemma find_by_app key rows r :
  find_by key_of key (rows ++ [r]) =
  match find_by key_of key rows with
  | Some p => Some p
  | None => if decide (key_of r = key) then Some (length rows, r) else None
  end.
Proof.
  unfold find_by, first. rewrite indexed_app, filter_app.
  destruct (filter _ (indexed rows)) as [|p l]; simpl; [|done].
  rewrite filter_cons, filter_nil. simpl. by destruct (decide _).
Qed.

Lemma indexed_alter f i (rows : list A) :
  indexed (alter f i rows) = at_row f i <$> indexed rows.
Proof.
  apply list_eq. intros k.
  rewrite list_lookup_fmap, !indexed_lookup, list_lookup_alter.
  unfold at_row. destruct (decide (i = k)) as [->|Hne].
  - destruct (rows !! k); simpl; [|done]. by rewrite decide_True.
  - destruct (rows !! k); simpl; [|done]. by rewrite decide_False.
Qed.

Lemma filter_fmap_stable (P : nat * A → Prop) `{!∀ x, Decision (P x)}
    (g : nat * A → nat * A) (l : list (nat * A)) :
  (∀ x, P (g x) ↔ P x) → filter P (g <$> l) = g <$> filter P l.
Proof.
  intros Hg. induction l as [|a l IH]; [done|].
  rewrite fmap_cons, !filter_cons. destruct (decide (P a)) as [Pa|nPa].
  - rewrite decide_True by (by apply Hg). by rewrite fmap_cons, IH.
  - rewrite decide_False by (by rewrite Hg). done.
Qed.

(** Writing attributes other than the key does not move a row. *)
Lemma find_by_alter f i key rows :
  (∀ x, key_of (f x) = key_of x) →
  find_by key_of key (alter f i rows) = at_row f i <$> find_by key_of key rows.
Proof.
  intros Hf. unfold find_by, first.
  rewrite indexed_alter, filter_fmap_stable.
  - by destruct (filter _ (indexed rows)).
  - intros [k x]. unfold at_row. simpl. destruct (decide _); [|done].
    by rewrite Hf.
Qed.
End FindBy.

(** ** The dispatcher's choice *)

Lemma select_tasks_elem c rows i t :
  (i, t) ∈ select_tasks c rows ↔ rows !! i = Some t ∧ holds c t = true.
Proof.
  unfold select_tasks. rewrite list_elem_of_filter, elem_of_indexed. simpl. tauto.
Qed.

(** [next_pending] returns a waiting task whose rank is minimal among the
    waiting tasks and, among those of minimal rank, the one stored first. *)
Lemma next_pending_Some rows i t :
  next_pending rows = Some (i, t) →
  rows !! i = Some t ∧ is_pending t ∧
  ∀ i' u, rows !! i' = Some u → is_pending u →
    key_le (ordering t) (ordering u) = true ∧
    (key_le (ordering u) (ordering t) = true → (i ≤ i')%nat).
Proof.
  unfold next_pending. intros H.
  apply first_order_by_split in H as (l1 & l2 & Hsel & Hl1 & Hl2).
  assert (Hin : (i, t) ∈ select_tasks (status_eq "pending") rows)
    by (rewrite Hsel; set_solver).
  apply select_tasks_elem in Hin as [Hi Hp]. simpl in Hp.
  apply bool_decide_eq_true in Hp.
  split; [done|]. split; [done|].
  intros i' u Hi' Hu.
  assert (Hin' : (i', u) ∈ l1 ++ (i, t) :: l2).
  { rewrite <- Hsel. apply select_tasks_elem. split; [done|].
    simpl. by apply bool_decide_eq_true. }
  unfold select_tasks in Hsel.
  apply filter_split in Hsel as (l1' & l2' & Hidx & <- & <-).
  apply indexed_split in Hidx as (_ & _ & Hafter).
  apply elem_of_app in Hin' as [Hin'|Hin'].
  - specialize (Hl1 _ Hin'). simpl in Hl1. split.
    + by apply key_le_total.
    + intros Hle. congruence.
  - apply elem_of_cons in Hin' as [Heq|Hin'].
    + injection Heq as -> ->. split; [apply key_le_refl|lia].
    + split; [apply (Hl2 _ Hin')|]. intros _.
      apply list_elem_of_filter in Hin' as [_ Hin'].
      apply Hafter in Hin'. lia.
Qed.

Lemma next_pending_None rows :
  next_pending rows = None ↔ ∀ t, t ∈ rows → ¬ is_pending t.
Proof.
  unfold next_pending. split.
  - intros H t Ht Hp. apply list_elem_of_lookup in Ht as [i Hi].
    assert (Hin : (i, t) ∈ select_tasks (status_eq "pending") rows).
    { apply select_tasks_elem. split; [done|]. simpl. by apply bool_decide_eq_true. }
    destruct (first_order_by_is_Some (λ p, ordering p.2)
                (select_tasks (status_eq "pending") rows)) as [x Hx].
    + intros E. rewrite E in Hin. by apply elem_of_nil in Hin.
    + congruence.
  - intros H. destruct (select_tasks (status_eq "pending") rows) as [|[i t] l] eqn:E.
    + done.
    + exfalso. assert (Hin : (i, t) ∈ select_tasks (status_eq "pending") rows)
        by (rewrite E; left).
      apply select_tasks_elem in Hin as [Hi Hp]. simpl in Hp.
      apply bool_decide_eq_true in Hp.
      apply (H t); [|done]. apply list_elem_of_lookup. eauto.
Qed.

Lemma no_rendering_row c rows :
  first (select_tasks c rows) = None ↔ ∀ t, t ∈ rows → holds c t ≠ true.
Proof.
  unfold select_tasks. rewrite first_filter_None. split.
  - intros H t Ht. apply list_elem_of_lookup in Ht as [i Hi].
    apply (H (i, t)). by apply elem_of_indexed.
  - intros H [i t] Hin. apply elem_of_indexed in Hin. simpl.
    apply H. apply list_elem_of_lookup. eauto.
Qed.

(** ** [worker_request_task], step by step *)

Lemma worker_request_task_unfold now uuid4 worker_id d :
  worker_request_task now uuid4 worker_id (open_session d) =
  match first (select_tasks (status_eq "rendering") (tasks d)) with
  | Some _ => Ok (message "Task is processing", 404) (open_session d)
  | None =>
      if bool_decide (length (select_workers is_ready (workers d)) = 0%nat)
      then if keys_unique (registered now uuid4 d)
           then dispatch uuid4 (registered now uuid4 d)
           else Raise IntegrityError (open_session d)
      else dispatch worker_id d
  end.
Proof.
  cbv beta iota zeta delta
    [worker_request_task dispatch next_pending registered bound mbind M_bind
     mret M_ret query_workers query_tasks get_worker read_workers read_tasks
     add_worker commit task_set worker_set py_and py_bool open_session
     working committed tasks workers].
  fold is_ready.
  destruct (first (select_tasks _ _)); [done|].
  destruct (bool_decide (length _ = 0%nat)).
  - destruct (keys_unique _); [|done].
    destruct (find_by _ _ _) as [[j w]|]; [|done].
    destruct (first (order_by _ _)) as [[i t]|]; [|done].
    by destruct (keys_unique _).
  - destruct (find_by _ _ _) as [[j w]|]; [|done].
    destruct (first (order_by _ _)) as [[i t]|]; [|done].
    by destruct (keys_unique _).
Qed.

(** ** The other handlers, as seen from the committed database *)

Ltac run_handler :=
  cbv beta iota zeta delta
    [serve outcome_of create_render get_renders get_render_status get_workers
     update_worker_status update_render_status complete_render
     worker_heartbeat datetime raise fmap M_fmap mbind M_bind mret M_ret
     get_task get_worker read_workers read_tasks add_task add_worker
     commit task_set worker_set open_session working committed tasks workers].

Lemma serve_update_render_status task_id status progress d :
  serve (update_render_status task_id status progress) d =
  match find_by RenderTask.id task_id (tasks d) with
  | None => (Replied (error "Task not found", 404), d)
  | Some _ => (Uncaught TypeError, d)
  end.
Proof.
  run_handler. destruct (find_by _ _ _) as [[i t]|]; [|done].
  destruct (truthy status), progress; done.
Qed.

Lemma serve_complete_render task_id d :
  serve (complete_render task_id) d =
  match find_by RenderTask.id task_id (tasks d) with
  | None => (Replied (error "Task not found", 404), d)
  | Some _ => (Uncaught TypeError, d)
  end.
Proof. run_handler. by destruct (find_by _ _ _) as [[i t]|]. Qed.

Lemma serve_worker_heartbeat worker_id d :
  serve (worker_heartbeat worker_id) d =
  match find_by Worker.id worker_id (workers d) with
  | None => (Replied (error "Worker not found", 404), d)
  | Some _ => (Uncaught TypeError, d)
  end.
Proof. run_handler. by destruct (find_by _ _ _) as [[j w]|]. Qed.

Lemma serve_update_worker_status worker_id status d :
  serve (update_worker_status worker_id status) d =
  match find_by Worker.id worker_id (workers d) with
  | None => (Replied (error "Worker not found", 404), d)
  | Some (j, _) =>
      match status with
      | None => (Replied (error "Invalid status", 400), d)
      | Some status =>
          if bool_decide (status ∉ ["Ready"; "Busy"; "Offline"])
          then (Replied (error "Invalid status", 400), d)
          else if bool_decide (status ≠ "Offline") then (Uncaught TypeError, d)
          else if keys_unique (switched_off j d)
               then (Replied (jsonify (status_message status "Worker status updated")),
                     switched_off j d)
               else (Uncaught IntegrityError, d)
      end
  end.
Proof.
  run_handler. destruct (find_by _ _ _) as [[j w]|]; [|done].
  destruct status as [status|]; [|done].
  destruct (bool_decide (status ∉ _)); [done|].
  destruct (bool_decide (status ≠ "Offline")) eqn:E; [done|].
  apply bool_decide_eq_false in E. apply dec_stable in E. subst status.
  unfold switched_off. cbn [tasks workers].
  by destruct (keys_unique _).
Qed.

Lemma serve_create_render defaults uuid4 priority d :
  serve (create_render defaults uuid4 priority) d =
  let priority := default "MEDIUM" priority in
  let new_task :=
    RenderTask.mk uuid4 "pending" priority 0
      (default_created_at defaults) (default_updated_at defaults) None in
  if bool_decide (priority ∉ PRIORITY)
  then (Replied (error "Invalid priority", 400), d)
  else if keys_unique (mkDB (tasks d ++ [new_task]) (workers d))
       then (Replied (task_queued uuid4, 201), mkDB (tasks d ++ [new_task]) (workers d))
       else (Uncaught IntegrityError, d).
Proof.
  run_handler. destruct (bool_decide (_ ∉ PRIORITY)); [done|].
  by destruct (keys_unique _).
Qed.

Lemma serve_get_renders d : (serve get_renders d).2 = d.
Proof. by run_handler. Qed.

Lemma serve_get_render_status task_id d : (serve (get_render_status task_id) d).2 = d.
Proof. run_handler. by destruct (find_by _ _ _) as [[i t]|]. Qed.

Lemma serve_get_workers d : (serve get_workers d).2 = d.
Proof. by run_handler. Qed.

(** [worker_request_task] leaves a clean session behind: nothing is
    written that is not committed. *)
Lemma dispatch_clean worker_id d :
  ∃ d', res_session (dispatch worker_id d) = open_session d'.
Proof.
  unfold dispatch. destruct (find_by _ _ _) as [[j w]|]; [|eauto].
  destruct (next_pending _) as [[i t]|]; [|eauto].
  destruct (keys_unique _); eauto.
Qed.

Lemma worker_request_task_clean now uuid4 worker_id d :
  res_session (worker_request_task now uuid4 worker_id (open_session d)) =
  open_session (step (RequestTask now uuid4 worker_id) d).2.
Proof.
  unfold step, serve, outcome_of, handler.
  assert (∃ d', res_session (worker_request_task now uuid4 worker_id (open_session d))
                = open_session d') as [d' Hd'].
  { rewrite worker_request_task_unfold.
    destruct (first _); [eauto|]. destruct (bool_decide _).
    - destruct (keys_unique _); [apply dispatch_clean|eauto].
    - apply dispatch_clean. }
  rewrite Hd'. destruct (worker_request_task _ _ _ _); simpl in *; by subst.
Qed.

(** ** The sweep is a run of task requests *)

Lemma for_failed_workers_steps env k failed d :
  ∃ ops, Forall is_request ops ∧
    res_session (for_failed_workers env k failed (open_session d)) =
    open_session (run_ops ops d).
Proof.
  revert k d. induction failed as [|[j w] rest IH]; intros k d.
  - exists []. split; [constructor|done].
  - pose proof (worker_request_task_clean (env k).1 (env k).2 (Worker.id w) d) as Hc.
    cbn [for_failed_workers]. unfold mbind, M_bind.
    destruct (worker_request_task _ _ _ _) as [r s|e s]; simpl in Hc; subst s.
    + destruct (IH (S k) (step (RequestTask (env k).1 (env k).2 (Worker.id w)) d).2)
        as (ops & Hops & Heq).
      exists (RequestTask (env k).1 (env k).2 (Worker.id w) :: ops).
      split; [by constructor|]. exact Heq.
    + exists [RequestTask (env k).1 (env k).2 (Worker.id w)].
      split; [by repeat constructor|]. done.
Qed.

Lemma sweep_steps now env d :
  ∃ ops, Forall is_request ops ∧ sweep now env d = run_ops ops d.
Proof.
  unfold sweep, check_worker_failures.
  cbv beta iota delta [mbind M_bind mret M_ret query_workers read_workers open_session].
  cbn [working workers].
  destruct (select_workers _ _) as [|p failed] eqn:E.
  - pose proof (worker_request_task_clean (env 0%nat).1 (env 0%nat).2 "" d) as Hc.
    unfold open_session in Hc.
    exists [RequestTask (env 0%nat).1 (env 0%nat).2 ""].
    split; [by repeat constructor|].
    destruct (worker_request_task _ _ _ _) as [r s|e s]; simpl in Hc; by subst s.
  - destruct (for_failed_workers_steps env 0 (p :: failed) d) as (ops & Hops & Heq).
    exists ops. split; [done|]. unfold open_session in Heq.
    destruct (for_failed_workers _ _ _ _); simpl in Heq; by subst s.
Qed.

Lemma reachable_run_ops ops d : reachable d → reachable (run_ops ops d).
Proof.
  revert d. induction ops as [|op ops IH]; intros d Hd; [done|].
  simpl. apply IH. by constructor.
Qed.

(** The sample databases are states of the service. *)
Lemma db_busy_reachable : reachable db_busy.
Proof.
  change db_busy with
    (run_ops [RequestTask 0 "w2" ""; UpdateWorkerStatus "w2" (Some "Offline");
              RequestTask 0 "w1" ""; SubmitTask (mkDefaults 5 5) "t1" (Some "HIGH");
              RequestTask 7 "" "w1"; SubmitTask (mkDefaults 6 6) "t2" (Some "LOW")]
       empty_db).
  apply reachable_run_ops. constructor.
Qed.

Lemma db_ties_reachable : reachable db_ties.
Proof.
  change db_ties with
    (run_ops [RequestTask 90 "w2" ""; SubmitTask (mkDefaults 20 20) "tA" None;
              SubmitTask (mkDefaults 10 10) "tB" None]
       empty_db).
  apply reachable_run_ops. constructor.
Qed.

Lemma db_offline_reachable : reachable db_offline.
Proof.
  change db_offline with
    (run_ops [RequestTask 3 "w1" ""; UpdateWorkerStatus "w1" (Some "Offline")]
       empty_db).
  apply reachable_run_ops. constructor.
Qed.

(** Every reachable state is reached by requests alone. *)
Lemma reachable_ind_steps (P : DB → Prop) :
  P empty_db → (∀ op d, reachable d → P d → P (step op d).2) →
  ∀ d, reachable d → P d.
Proof.
  intros Hinit Hstep.
  assert (Hrun : ∀ ops d, reachable d → P d → P (run_ops ops d)).
  { induction ops as [|op ops IH]; intros d Hr Hd; [done|].
    simpl. apply IH; [by constructor|by apply Hstep]. }
  induction 1 as [|op d Hd IH|now env d Hd IH]; [done|by apply Hstep|].
  destruct (sweep_steps now env d) as (ops & _ & ->). by apply Hrun.
Qed.

Lemma step_request_task now uuid4 worker_id d :
  step (RequestTask now uuid4 worker_id) d =
  match first (select_tasks (status_eq "rendering") (tasks d)) with
  | Some _ => (Replied (message "Task is processing", 404), d)
  | None =>
      if bool_decide (length (select_workers is_ready (workers d)) = 0%nat)
      then if keys_unique (registered now uuid4 d)
           then outcome_of (dispatch uuid4 (registered now uuid4 d))
           else (Uncaught IntegrityError, d)
      else outcome_of (dispatch worker_id d)
  end.
Proof.
  unfold step, serve, handler. rewrite worker_request_task_unfold.
  destruct (first _); [done|]. destruct (bool_decide _); [|done].
  by destruct (keys_unique _).
Qed.

Lemma outcome_of_dispatch worker_id d :
  outcome_of (dispatch worker_id d) =
  match find_by Worker.id worker_id (workers d) with
  | None => (Replied (error "Worker not found", 404), d)
  | Some (j, _) =>
      match next_pending (tasks d) with
      | None => (Replied (message "No available tasks", 404), d)
      | Some (i, task) =>
          if keys_unique (bound i j worker_id task d)
          then (Replied (jsonify (task_assigned (RenderTask.id task))),
                bound i j worker_id task d)
          else (Uncaught IntegrityError, d)
      end
  end.
Proof.
  unfold dispatch. destruct (find_by _ _ _) as [[j w]|]; [|done].
  destruct (next_pending _) as [[i t]|]; [|done].
  by destruct (keys_unique _).
Qed.

(** ** Task and worker stay paired *)

Lemma consistent_registered now uuid4 d :
  consistent d → consistent (registered now uuid4 d).
Proof.
  intros Hd t Ht. destruct (Hd t Ht) as [Ha Hb]. split; [|done].
  intros Hr. destruct (Ha Hr) as (w & j & wk & Hw & Hf & Hc).
  exists w, j, wk. split; [done|]. split; [|done].
  unfold registered. cbn [workers]. by rewrite find_by_app, Hf.
Qed.

Lemma consistent_switched_off j d : consistent d → consistent (switched_off j d).
Proof.
  intros Hd t Ht. destruct (Hd t Ht) as [Ha Hb]. split; [|done].
  intros Hr. destruct (Ha Hr) as (w & j' & wk & Hw & Hf & Hc).
  eexists w, _, _. split; [done|]. split.
  - unfold switched_off. cbn [workers].
    rewrite !find_by_alter, Hf by done. reflexivity.
  - simpl. repeat destruct (decide _); done.
Qed.

Lemma consistent_bound i j w wk t d :
  consistent d → (∀ u, u ∈ tasks d → ¬ is_rendering u) →
  find_by Worker.id w (workers d) = Some (j, wk) →
  tasks d !! i = Some t →
  consistent (bound i j w t d).
Proof.
  intros Hd Hnone Hf Hi u Hu.
  apply list_elem_of_lookup in Hu as [i' Hi'].
  unfold bound in Hi'. cbn [tasks] in Hi'.
  destruct (decide (i = i')) as [<-|Hne].
  - rewrite !list_lookup_alter_eq, Hi in Hi'. simpl in Hi'. injection Hi' as <-.
    split; [|intros Hn; by destruct Hn].
    intros _. eexists w, _, _. split; [done|]. split.
    + unfold bound. cbn [workers].
      rewrite !find_by_alter, Hf by done. reflexivity.
    + simpl. repeat destruct (decide _); done.
  - rewrite !list_lookup_alter_ne in Hi' by done.
    assert (Hin : u ∈ tasks d) by (apply list_elem_of_lookup; eauto).
    split; [intros Hr; by destruct (Hnone u Hin)|].
    intros Hn. by apply (Hd u Hin).
Qed.

Lemma consistent_dispatch w d :
  consistent d → (∀ u, u ∈ tasks d → ¬ is_rendering u) →
  consistent (outcome_of (dispatch w d)).2.
Proof.
  intros Hd Hnone. rewrite outcome_of_dispatch.
  destruct (find_by _ _ _) as [[j wk]|] eqn:Hf; [|done].
  destruct (next_pending _) as [[i t]|] eqn:Hn; [|done].
  destruct (keys_unique _); [|done]. simpl.
  apply next_pending_Some in Hn as (Hi & _). by eapply consistent_bound.
Qed.

Lemma consistent_step op d : consistent d → consistent (step op d).2.
Proof.
  intros Hd. destruct op as [df u p| |tid| |now u w|w st|tid st pr|tid|w].
  - unfold step, handler. rewrite serve_create_render. cbv zeta.
    destruct (bool_decide _); [done|]. destruct (keys_unique _); [|done].
    simpl. intros t Ht. cbn [tasks] in Ht.
    apply elem_of_app in Ht as [Ht|Ht].
    + exact (Hd t Ht).
    + apply list_elem_of_singleton in Ht as ->. split; [|done].
      intros Hr. unfold is_rendering in Hr. simpl in Hr. discriminate.
  - unfold step, handler. by rewrite serve_get_renders.
  - unfold step, handler. by rewrite serve_get_render_status.
  - unfold step, handler. by rewrite serve_get_workers.
  - rewrite step_request_task.
    destruct (first _) eqn:Hr; [done|].
    assert (Hnone : ∀ x, x ∈ tasks d → ¬ is_rendering x).
    { intros x Hu Hren. eapply no_rendering_row in Hr; [|exact Hu].
      apply Hr. simpl. by apply bool_decide_eq_true. }
    destruct (bool_decide _).
    + destruct (keys_unique _); [|done].
      apply consistent_dispatch; [by apply consistent_registered|done].
    + by apply consistent_dispatch.
  - unfold step, handler. rewrite serve_update_worker_status.
    destruct (find_by _ _ _) as [[j wk]|]; [|done].
    destruct st as [st|]; [|done].
    destruct (bool_decide (st ∉ _)); [done|].
    destruct (bool_decide (st ≠ _)); [done|].
    destruct (keys_unique _); [|done]. simpl. by apply consistent_switched_off.
  - unfold step, handler. rewrite serve_update_render_status.
    by destruct (find_by _ _ _).
  - unfold step, handler. rewrite serve_complete_render.
    by destruct (find_by _ _ _).
  - unfold step, handler. rewrite serve_worker_heartbeat.
    by destruct (find_by _ _ _).
Qed.

Lemma reachable_consistent d : reachable d → consistent d.
Proof.
  apply reachable_ind_steps.
  - intros t Ht. by apply elem_of_nil in Ht.
  - intros op d' _. apply consistent_step.
Qed.

(** * Properties *)

(** ** Dispatch order *)

Lemma ordering_ranks prio rest :
  ordering (RenderTask.mk rest "pending" "RUSH" 0 prio prio None) = Some 0%nat ∧
  ordering (RenderTask.mk rest "pending" "HIGH" 0 prio prio None) = Some 1%nat ∧
  ordering (RenderTask.mk rest "pending" "MEDIUM" 0 prio prio None) = Some 2%nat ∧
  ordering (RenderTask.mk rest "pending" "LOW" 0 prio prio None) = Some 3%nat.
Proof. repeat split. Qed.

(** C1, counterexample: with two waiting MEDIUM tasks, the one stored
    first is handed out although the other was created earlier. *)
Lemma fifo_within_band_fails : ¬ fifo_within_band.
Proof.
  intros H.
  edestruct (H db_ties 100 "u" "w2" "tA") as (t & Ht & Hid & _ & _ & Hfifo);
    [vm_compute; reflexivity|].
  unfold db_ties in Ht. cbn [tasks] in Ht.
  apply elem_of_cons in Ht as [->|Ht].
  - specialize (Hfifo (task_row "tB" "pending" "MEDIUM" 10 None)).
    simpl in Hfifo. assert (20 ≤ 10); [|lia].
    apply Hfifo; [|done|done]. unfold db_ties. cbn [tasks]. set_solver.
  - apply list_elem_of_singleton in Ht as ->. discriminate.
Qed.

Lemma ordering_band t : ordering t = band (RenderTask.priority t).
Proof. reflexivity. Qed.

Lemma band_listed p : p ∈ PRIORITY → is_Some (band p).
Proof.
  unfold PRIORITY, band. rewrite !elem_of_cons, elem_of_nil.
  intros [->|[->|[->|[->|[]]]]]; eauto.
Qed.

Lemma db_bands_reachable : reachable db_bands.
Proof.
  change db_bands with
    (run_ops [RequestTask 90 "w2" ""; SubmitTask (mkDefaults 1 1) "tL" (Some "LOW");
              SubmitTask (mkDefaults 9 9) "tH1" (Some "HIGH");
              SubmitTask (mkDefaults 5 5) "tH2" (Some "HIGH")]
       empty_db).
  apply reachable_run_ops. constructor.
Qed.

(** On [db_bands] the request is handed [tH1]: HIGH goes before the LOW
    task stored ahead of it, and of the two HIGH tasks the one stored
    first is taken although the other was created earlier. *)
Example request_on_db_bands :
  (step (RequestTask 100 "u" "w2") db_bands).1
  = Replied (jsonify (task_assigned "tH1")).
Proof. vm_compute. reflexivity. Qed.

(** C1, amended: when a task is waiting and the waiting tasks carry
    listed priorities (as they do in every reachable state), the
    dispatcher's query returns a waiting task of the best band present,
    in the order RUSH, HIGH, MEDIUM, LOW: no waiting task has a band
    before its band; among waiting tasks of its band it is the one
    stored first, [created_at] not being consulted; and every request
    that is handed a task is handed that one. *)
Theorem dispatch_by_priority_then_storage d :
  (∃ u, u ∈ tasks d ∧ is_pending u) →
  (∀ u, u ∈ tasks d → is_pending u → RenderTask.priority u ∈ PRIORITY) →
  ∃ i t a, next_pending (tasks d) = Some (i, t) ∧
    tasks d !! i = Some t ∧ is_pending t ∧
    band (RenderTask.priority t) = Some a ∧
    (∀ i' u, tasks d !! i' = Some u → is_pending u →
       ∃ b, band (RenderTask.priority u) = Some b ∧ (a ≤ b)%nat ∧
         (a = b → (i ≤ i')%nat)) ∧
    (∀ now uuid4 worker_id tid d',
       step (RequestTask now uuid4 worker_id) d
         = (Replied (jsonify (task_assigned tid)), d') →
       tid = RenderTask.id t).
Proof.
  intros (u0 & Hu0 & Hp0) Hlisted.
  destruct (next_pending (tasks d)) as [[i t]|] eqn:Hn.
  2: { exfalso. eapply next_pending_None in Hn; eauto. }
  destruct (next_pending_Some _ _ _ Hn) as (Hi & Hp & Hmin).
  assert (Hin : t ∈ tasks d) by (apply list_elem_of_lookup; eauto).
  destruct (band_listed _ (Hlisted t Hin Hp)) as [a Ha].
  exists i, t, a. split; [done|]. split; [done|]. split; [done|].
  split; [done|]. split.
  - intros i' u Hi' Hu.
    assert (Huin : u ∈ tasks d) by (apply list_elem_of_lookup; eauto).
    destruct (band_listed _ (Hlisted u Huin Hu)) as [b Hb].
    destruct (Hmin i' u Hi' Hu) as [Hle Htie].
    rewrite !ordering_band, Ha, Hb in Hle, Htie. simpl in Hle, Htie.
    apply bool_decide_eq_true in Hle.
    exists b. split; [done|]. split; [done|].
    intros ->. apply Htie. by apply bool_decide_eq_true.
  - intros now uuid4 worker_id tid d'.
    rewrite step_request_task.
    destruct (first _); [intros Ho; discriminate Ho|].
    assert (Hd : ∀ w d0, tasks d0 = tasks d →
              outcome_of (dispatch w d0) = (Replied (jsonify (task_assigned tid)), d') →
              tid = RenderTask.id t).
    { intros w d0 Ht. rewrite outcome_of_dispatch, Ht, Hn. unfold jsonify.
      destruct (find_by _ _ _) as [[j wk]|]; [|intros Ho; discriminate Ho].
      destruct (keys_unique (bound _ _ _ _ _)); intros Ho; [|discriminate Ho].
      congruence. }
    destruct (bool_decide _).
    + destruct (keys_unique _); [|intros Ho; discriminate Ho]. by eapply Hd.
    + by eapply Hd.
Qed.

Lemma dispatch_by_priority_then_storage_witness :
  (∃ u, u ∈ tasks db_bands ∧ is_pending u) ∧
  (∀ u, u ∈ tasks db_bands → is_pending u → RenderTask.priority u ∈ PRIORITY) ∧
  ∃ i t a, next_pending (tasks db_bands) = Some (i, t) ∧
    tasks db_bands !! i = Some t ∧ is_pending t ∧
    band (RenderTask.priority t) = Some a ∧
    (∀ i' u, tasks db_bands !! i' = Some u → is_pending u →
       ∃ b, band (RenderTask.priority u) = Some b ∧ (a ≤ b)%nat ∧
         (a = b → (i ≤ i')%nat)) ∧
    (∀ now uuid4 worker_id tid d',
       step (RequestTask now uuid4 worker_id) db_bands
         = (Replied (jsonify (task_assigned tid)), d') →
       tid = RenderTask.id t).
Proof.
  assert (Hex : ∃ u, u ∈ tasks db_bands ∧ is_pending u).
  { exists (task_row "tL" "pending" "LOW" 1 None). split; [|reflexivity].
    unfold db_bands. cbn [tasks]. left. }
  assert (Hlisted : ∀ u, u ∈ tasks db_bands → is_pending u →
                      RenderTask.priority u ∈ PRIORITY).
  { intros u Hu _. unfold db_bands in Hu. cbn [tasks] in Hu. unfold PRIORITY.
    apply elem_of_cons in Hu as [->|Hu]; [simpl; do 3 right; left|].
    apply elem_of_cons in Hu as [->|Hu]; [simpl; right; left|].
    apply list_elem_of_singleton in Hu as ->. simpl. right; left. }
  split; [exact Hex|]. split; [exact Hlisted|].
  exact (dispatch_by_priority_then_storage db_bands Hex Hlisted).
Defined.

(** ** The busy check *)

(** The request is answered "Task is processing" exactly when some task
    is rendering, whichever worker holds it. *)
Lemma request_task_busy_iff now uuid4 worker_id d :
  (step (RequestTask now uuid4 worker_id) d).1
    = Replied (message "Task is processing", 404)
  ↔ ∃ t, t ∈ tasks d ∧ is_rendering t.
Proof.
  rewrite step_request_task.
  destruct (first _) as [[i t]|] eqn:Hr.
  - split; [intros _|done]. unfold select_tasks in Hr.
    apply first_filter_Some in Hr as [Hin Hh]. apply elem_of_indexed in Hin.
    exists t. split; [apply list_elem_of_lookup; eauto|].
    simpl in Hh. by apply bool_decide_eq_true in Hh.
  - split.
    + assert (Hd : ∀ w d0, (outcome_of (dispatch w d0)).1
                ≠ Replied (message "Task is processing", 404)).
      { intros w d0. rewrite outcome_of_dispatch.
        destruct (find_by _ _ _) as [[j wk]|]; [|done].
        destruct (next_pending _) as [[i t]|]; [|done].
        by destruct (keys_unique _). }
      destruct (bool_decide _); [destruct (keys_unique _)|]; intros Ho;
        solve [by apply Hd in Ho | discriminate Ho].
    + intros (t & Ht & Hren). eapply no_rendering_row in Hr; [|exact Ht].
      destruct Hr. simpl. by apply bool_decide_eq_true.
Qed.

(** C2, at the failing input: in a state the service can reach, [w1]
    is rendering [t1], the registered worker [w2] holds no task, and the
    request of [w2] is turned away as busy while [t2] keeps waiting. *)
Theorem request_task_busy_for_idle_worker :
  reachable db_busy ∧
  (∀ t, t ∈ tasks db_busy → is_rendering t → RenderTask.worker_id t ≠ Some "w2") ∧
  step (RequestTask 100 "u" "w2") db_busy
    = (Replied (message "Task is processing", 404), db_busy).
Proof.
  split; [exact db_busy_reachable|].
  split; [|vm_compute; reflexivity].
  intros t Ht Hr. unfold db_busy in Ht. cbn [tasks] in Ht.
  apply elem_of_cons in Ht as [->|Ht]; [discriminate|].
  apply list_elem_of_singleton in Ht as ->. discriminate.
Qed.

(** ** The liveness sweep *)

(** C3, at the failing input: in a state the service can reach, the
    heartbeat of [w1] has expired at time 100 and [w1] is not Offline,
    yet after the sweep [t1] is still rendering for [w1] and [w1] is
    still busy with [t1]: the database is unchanged. *)
Theorem sweep_leaves_stale_worker_bound :
  reachable db_busy ∧
  heartbeat_expired 100 w1_busy = true ∧
  sweep 100 (λ _, (100, "u")) db_busy = db_busy.
Proof. split; [exact db_busy_reachable|]. split; vm_compute; reflexivity. Qed.

(** A stale worker that holds nothing is even handed the next task. *)
Example sweep_assigns_to_stale_worker :
  sweep 100 (λ _, (100, "u"))
    (mkDB [task_row "t2" "pending" "LOW" 6 None]
          [Worker.mk "w1" "Ready" (Some 0) None])
  = mkDB [task_row "t2" "rendering" "LOW" 6 (Some "w1")]
         [Worker.mk "w1" "Busy" (Some 0) (Some "t2")].
Proof. vm_compute. reflexivity. Qed.

(** ** Heartbeat *)

Lemma heartbeat_never_commits worker_id d : (step (Heartbeat worker_id) d).2 = d.
Proof.
  unfold step, handler. rewrite serve_worker_heartbeat.
  by destruct (find_by _ _ _).
Qed.

(** C8, at the failing input: in a state the service can reach, the
    heartbeat of the known worker [w1] ends in an uncaught [TypeError];
    nothing is committed and [last_heartbeat] keeps its old value 0
    instead of the clock reading. *)
Theorem heartbeat_of_known_worker_raises :
  reachable db_busy ∧
  step (Heartbeat "w1") db_busy = (Uncaught TypeError, db_busy) ∧
  find_by Worker.id "w1" (workers (step (Heartbeat "w1") db_busy).2)
    = Some (1%nat, w1_busy) ∧
  Worker.last_heartbeat w1_busy = Some 0.
Proof. split; [exact db_busy_reachable|]. repeat split; vm_compute; reflexivity. Qed.

(** ** Read-only operations *)

(** C10: listing the tasks, looking one task up (found or not) and
    listing the workers leave the database as it was. *)
Theorem read_only_operations_keep_database d task_id :
  (step ListTasks d).2 = d ∧
  (step (GetTask task_id) d).2 = d ∧
  (step ListWorkers d).2 = d.
Proof.
  unfold step, handler.
  by rewrite serve_get_renders, serve_get_render_status, serve_get_workers.
Qed.

(** ** Pairing of tasks and workers *)

(** C5: in every reachable state a task is rendering exactly when it
    names a worker whose record names the task back, and a task that is
    not rendering names no worker. *)
Theorem assigned_iff_worker_points_back d t :
  reachable d → t ∈ tasks d →
  (is_rendering t ↔
     ∃ w j wk, RenderTask.worker_id t = Some w ∧
       find_by Worker.id w (workers d) = Some (j, wk) ∧
       Worker.current_task_id wk = Some (RenderTask.id t)) ∧
  (¬ is_rendering t → RenderTask.worker_id t = None).
Proof.
  intros Hd Ht. destruct (reachable_consistent d Hd t Ht) as [Ha Hb].
  split; [|done]. split; [done|].
  intros (w & j & wk & Hw & _). destruct (decide (is_rendering t)) as [|Hn]; [done|].
  rewrite (Hb Hn) in Hw. discriminate.
Qed.

Lemma assigned_iff_worker_points_back_witness :
  reachable db_after_dispatch ∧ t_dispatched ∈ tasks db_after_dispatch ∧
  (is_rendering t_dispatched ↔
     ∃ w j wk, RenderTask.worker_id t_dispatched = Some w ∧
       find_by Worker.id w (workers db_after_dispatch) = Some (j, wk) ∧
       Worker.current_task_id wk = Some (RenderTask.id t_dispatched)) ∧
  (¬ is_rendering t_dispatched → RenderTask.worker_id t_dispatched = None).
Proof.
  assert (Hr : reachable db_after_dispatch) by (do 2 constructor; constructor).
  assert (Ht : t_dispatched ∈ tasks db_after_dispatch) by (vm_compute; left).
  split; [exact Hr|]. split; [exact Ht|].
  exact (assigned_iff_worker_points_back db_after_dispatch t_dispatched Hr Ht).
Defined.

(** ** Completion *)

(** C4, counterexample: after completing [t1], its worker [w1] is still
    busy with it. *)
Lemma complete_releases_worker_fails : ¬ complete_releases_worker.
Proof.
  intros H.
  destruct (H db_busy t1_rendering "w1") as [_ (j & wk & Hf & Hs & _)].
  - unfold db_busy. cbn [tasks]. left.
  - reflexivity.
  - reflexivity.
  - vm_compute in Hf. injection Hf as _ <-. discriminate Hs.
Qed.

(** C4, amended: completing an unknown task is answered "Task not
    found" and changes nothing; completing any task leaves every worker
    record as it was. *)
Theorem complete_render_keeps_workers d task_id :
  workers (step (CompleteTask task_id) d).2 = workers d ∧
  (find_by RenderTask.id task_id (tasks d) = None →
   step (CompleteTask task_id) d = (Replied (error "Task not found", 404), d)).
Proof.
  unfold step, handler. rewrite serve_complete_render.
  destruct (find_by _ _ _); [|done]. split; [done|]. intros Hn. discriminate Hn.
Qed.

Lemma complete_render_keeps_workers_witness :
  find_by RenderTask.id "t9" (tasks db_busy) = None ∧
  workers (step (CompleteTask "t9") db_busy).2 = workers db_busy ∧
  step (CompleteTask "t9") db_busy = (Replied (error "Task not found", 404), db_busy).
Proof.
  assert (Hn : find_by RenderTask.id "t9" (tasks db_busy) = None) by reflexivity.
  split; [exact Hn|].
  destruct (complete_render_keeps_workers db_busy "t9") as [Hw Hu].
  split; [exact Hw|exact (Hu Hn)].
Defined.

(** ** Status updates *)

(** C7, counterexample: status "bogus" with progress 2 on the known
    task [t1] is not answered with an invalid-argument error. *)
Lemma update_status_validates_fails : ¬ update_status_validates.
Proof.
  intros H.
  destruct (H db_busy "t1" (Some "bogus") (Some 2%Q)) as [msg Hmsg].
  - vm_compute. eauto.
  - left. exists "bogus". split; [done|]. unfold recognized_status.
    rewrite !elem_of_cons, elem_of_nil. intros [?|[?|[?|[?|[]]]]]; discriminate.
  - vm_compute in Hmsg. discriminate Hmsg.
Qed.

(** C7, amended: a status update is answered "Task not found" exactly
    when the task id is unknown, and then nothing is changed; no status
    update is ever answered with an invalid-argument error, whatever
    status or progress it carries. *)
Theorem update_status_not_found_only d task_id status progress :
  ((step (UpdateStatus task_id status progress) d).1
     = Replied (error "Task not found", 404)
   ↔ find_by RenderTask.id task_id (tasks d) = None) ∧
  (∀ b, (step (UpdateStatus task_id status progress) d).1 ≠ Replied (b, 400)) ∧
  (find_by RenderTask.id task_id (tasks d) = None →
   (step (UpdateStatus task_id status progress) d).2 = d).
Proof.
  unfold step, handler. rewrite serve_update_render_status.
  destruct (find_by _ _ _); simpl; repeat split; try done.
Qed.

Lemma update_status_not_found_only_witness :
  find_by RenderTask.id "t9" (tasks db_busy) = None ∧
  (step (UpdateStatus "t9" (Some "rendering") None) db_busy).2 = db_busy.
Proof.
  assert (Hn : find_by RenderTask.id "t9" (tasks db_busy) = None) by reflexivity.
  split; [exact Hn|].
  exact (proj2 (proj2 (update_status_not_found_only db_busy "t9"
                         (Some "rendering") None)) Hn).
Defined.

(** ** Failed calls *)

(** C6, counterexample: a task request on the empty database is answered
    "No available tasks" with code 404 and leaves a new worker behind. *)
Lemma error_changes_nothing_fails : ¬ error_changes_nothing.
Proof.
  intros H. specialize (H (RequestTask 100 "u" "w2") empty_db).
  assert (Hr : rejected (step (RequestTask 100 "u" "w2") empty_db).1).
  { exists (message "No available tasks"), 404. split; [vm_compute; reflexivity|lia]. }
  apply H in Hr. vm_compute in Hr. discriminate Hr.
Qed.

Lemma length_zero_nil {A} (l : list A) : length l = 0%nat → l = [].
Proof. by destruct l. Qed.

Lemma failed_dispatch w d :
  failed (outcome_of (dispatch w d)).1 → (outcome_of (dispatch w d)).2 = d.
Proof.
  rewrite outcome_of_dispatch.
  destruct (find_by _ _ _) as [[j wk]|]; [|done].
  destruct (next_pending _) as [[i t]|]; [|done].
  destruct (keys_unique _); [|done]. simpl. lia.
Qed.

(** C6, amended: a call that fails, by an error reply or by an
    exception, leaves the task table as it was; it leaves the worker
    table as it was too, except for a task request made when no worker
    is Ready, which has by then registered and committed one new Ready
    worker. *)
Theorem failed_call_keeps_tasks op d :
  failed (step op d).1 →
  tasks (step op d).2 = tasks d ∧
  (workers (step op d).2 = workers d ∨
   ∃ now uuid4 worker_id, op = RequestTask now uuid4 worker_id ∧
     select_workers is_ready (workers d) = [] ∧
     (step op d).2 = registered now uuid4 d).
Proof.
  destruct op as [df u p| |tid| |now u w|w st|tid st pr|tid|w].
  - unfold step, handler. rewrite serve_create_render. cbv zeta.
    destruct (bool_decide _); [auto|]. destruct (keys_unique _); [|auto].
    simpl. lia.
  - unfold step, handler. rewrite serve_get_renders. auto.
  - unfold step, handler. rewrite serve_get_render_status. auto.
  - unfold step, handler. rewrite serve_get_workers. auto.
  - rewrite step_request_task. destruct (first _); [auto|].
    destruct (bool_decide _) eqn:Hz.
    + apply bool_decide_eq_true, length_zero_nil in Hz.
      destruct (keys_unique _); [|auto].
      intros Hf. apply failed_dispatch in Hf. rewrite Hf.
      split; [done|]. right. by exists now, u, w.
    + intros Hf. apply failed_dispatch in Hf. rewrite Hf. auto.
  - unfold step, handler. rewrite serve_update_worker_status.
    destruct (find_by _ _ _) as [[j wk]|]; [|auto].
    destruct st as [st|]; [|auto].
    destruct (bool_decide (st ∉ _)); [auto|].
    destruct (bool_decide (st ≠ _)); [auto|].
    destruct (keys_unique _); [|auto]. simpl. lia.
  - unfold step, handler. rewrite serve_update_render_status.
    destruct (find_by _ _ _); auto.
  - unfold step, handler. rewrite serve_complete_render.
    destruct (find_by _ _ _); auto.
  - unfold step, handler. rewrite serve_worker_heartbeat.
    destruct (find_by _ _ _); auto.
Qed.

Lemma failed_call_keeps_tasks_witness :
  failed (step (RequestTask 100 "u" "w2") empty_db).1 ∧
  tasks (step (RequestTask 100 "u" "w2") empty_db).2 = tasks empty_db ∧
  (workers (step (RequestTask 100 "u" "w2") empty_db).2 = workers empty_db ∨
   ∃ now uuid4 worker_id,
     RequestTask 100 "u" "w2" = RequestTask now uuid4 worker_id ∧
     select_workers is_ready (workers empty_db) = [] ∧
     (step (RequestTask 100 "u" "w2") empty_db).2 = registered now uuid4 empty_db).
Proof.
  assert (Hf : failed (step (RequestTask 100 "u" "w2") empty_db).1)
    by (vm_compute; discriminate).
  split; [exact Hf|].
  exact (failed_call_keeps_tasks (RequestTask 100 "u" "w2") empty_db Hf).
Defined.

(** ** No task waiting *)

(** C9, counterexample: with no task at all and the known worker [w1]
    switched off, the request of [w1] registers a second worker. *)
Lemma no_task_report_is_silent_fails : ¬ no_task_report_is_silent.
Proof.
  intros H. destruct (H db_offline 100 "u" "w1") as [code Hc].
  - intros t Ht. unfold db_offline in Ht. cbn [tasks] in Ht.
    by apply elem_of_nil in Ht.
  - vm_compute in Hc. discriminate Hc.
Qed.

(** C9, amended: with no waiting task a request binds nothing and leaves
    the task table as it was.  When moreover no task is rendering, and
    either a worker is Ready and the requesting worker is known, or no
    worker is Ready and the new identifier is unused, the request is
    answered with the message "No available tasks" under code 404; the
    worker table is then as it was in the first case and has gained the
    new Ready worker in the second. *)
Theorem no_pending_request d now uuid4 worker_id :
  (∀ t, t ∈ tasks d → ¬ is_pending t) →
  tasks (step (RequestTask now uuid4 worker_id) d).2 = tasks d ∧
  (∀ tid, (step (RequestTask now uuid4 worker_id) d).1
          ≠ Replied (jsonify (task_assigned tid))) ∧
  ((∀ t, t ∈ tasks d → ¬ is_rendering t) →
   (select_workers is_ready (workers d) ≠ [] →
    is_Some (find_by Worker.id worker_id (workers d)) →
    step (RequestTask now uuid4 worker_id) d
      = (Replied (message "No available tasks", 404), d)) ∧
   (select_workers is_ready (workers d) = [] →
    keys_unique (registered now uuid4 d) = true →
    step (RequestTask now uuid4 worker_id) d
      = (Replied (message "No available tasks", 404), registered now uuid4 d))).
Proof.
  intros Hnone. apply next_pending_None in Hnone.
  assert (Hd : ∀ w d0, tasks d0 = tasks d →
            outcome_of (dispatch w d0) =
            match find_by Worker.id w (workers d0) with
            | None => (Replied (error "Worker not found", 404), d0)
            | Some _ => (Replied (message "No available tasks", 404), d0)
            end).
  { intros w d0 Ht. rewrite outcome_of_dispatch, Ht, Hnone.
    by destruct (find_by _ _ _) as [[j wk]|]. }
  rewrite step_request_task. split; [|split].
  - destruct (first _); [done|]. destruct (bool_decide _).
    + destruct (keys_unique _); [|done]. rewrite Hd by done.
      by destruct (find_by _ _ _).
    + rewrite Hd by done. by destruct (find_by _ _ _).
  - intros tid. destruct (first _); [done|]. destruct (bool_decide _).
    + destruct (keys_unique _); [|done]. rewrite Hd by done.
      by destruct (find_by _ _ _).
    + rewrite Hd by done. by destruct (find_by _ _ _).
  - intros Hnr.
    assert (Hf : first (select_tasks (status_eq "rendering") (tasks d)) = None).
    { apply no_rendering_row. intros t Ht Hh. apply (Hnr t Ht).
      simpl in Hh. by apply bool_decide_eq_true in Hh. }
    rewrite Hf. split.
    + intros Hready [p Hp]. rewrite bool_decide_eq_false_2.
      * by rewrite Hd, Hp.
      * intros Hz. by apply length_zero_nil in Hz.
    + intros Hready Hk. rewrite bool_decide_eq_true_2 by (by rewrite Hready).
      rewrite Hk, Hd by done. unfold registered. cbn [workers].
      rewrite find_by_app. destruct (find_by _ _ _); [done|].
      by rewrite decide_True.
Qed.

Lemma no_pending_request_witness :
  (∀ t, t ∈ tasks db_offline → ¬ is_pending t) ∧
  tasks (step (RequestTask 100 "u" "w1") db_offline).2 = tasks db_offline ∧
  (∀ t, t ∈ tasks db_offline → ¬ is_rendering t) ∧
  select_workers is_ready (workers db_offline) = [] ∧
  keys_unique (registered 100 "u" db_offline) = true ∧
  step (RequestTask 100 "u" "w1") db_offline
    = (Replied (message "No available tasks", 404), registered 100 "u" db_offline).
Proof.
  assert (Hp : ∀ t, t ∈ tasks db_offline → ¬ is_pending t).
  { intros t Ht. unfold db_offline in Ht. cbn [tasks] in Ht.
    by apply elem_of_nil in Ht. }
  assert (Hr : ∀ t, t ∈ tasks db_offline → ¬ is_rendering t).
  { intros t Ht. unfold db_offline in Ht. cbn [tasks] in Ht.
    by apply elem_of_nil in Ht. }
  assert (Hs : select_workers is_ready (workers db_offline) = []) by reflexivity.
  assert (Hk : keys_unique (registered 100 "u" db_offline) = true) by reflexivity.
  destruct (no_pending_request db_offline 100 "u" "w1" Hp) as (Ht & _ & Hrest).
  destruct (Hrest Hr) as [_ Hreg].
  split; [exact Hp|]. split; [exact Ht|]. split; [exact Hr|].
  split; [exact Hs|]. split; [exact Hk|]. exact (Hreg Hs Hk).
Defined.


(** * Further properties *)

(** ** Every change is a commit *)

Lemma first_select_rendering_None rows :
  first (select_tasks (status_eq "rendering") rows) = None ↔
  ∀ x, x ∈ rows → ¬ is_rendering x.
Proof.
  rewrite no_rendering_row. split.
  - intros H x Hx Hr. apply (H x Hx). simpl. by apply bool_decide_eq_true.
  - intros H x Hx Hh. apply (H x Hx). simpl in Hh. by apply bool_decide_eq_true in Hh.
Qed.

Lemma dispatch_commits w d :
  (∀ x, x ∈ tasks d → ¬ is_rendering x) →
  rtc request_commit d (outcome_of (dispatch w d)).2.
Proof.
  intros Hnone. rewrite outcome_of_dispatch.
  destruct (find_by _ _ _) as [[j wk]|] eqn:Hf; [|done].
  destruct (next_pending _) as [[i t]|] eqn:Hn; [|done].
  destruct (keys_unique _) eqn:Hk; [|done].
  apply rtc_once. by eapply rc_bind.
Qed.

Lemma step_request_commits now uuid4 worker_id d :
  rtc request_commit d (step (RequestTask now uuid4 worker_id) d).2.
Proof.
  rewrite step_request_task.
  destruct (first _) eqn:Hr; [done|].
  pose proof (proj1 (first_select_rendering_None _) Hr) as Hnone.
  destruct (bool_decide _) eqn:Hz.
  - apply bool_decide_eq_true, length_zero_nil in Hz.
    destruct (keys_unique _) eqn:Hk; [|done].
    eapply rtc_l; [by apply rc_register|]. by apply dispatch_commits.
  - by apply dispatch_commits.
Qed.

Lemma request_commit_step d d' : rtc request_commit d d' → rtc commit_step d d'.
Proof.
  induction 1 as [|x y z Hxy _ IH]; [done|].
  eapply rtc_l; [by apply cs_request|done].
Qed.

Lemma step_commits op d : rtc commit_step d (step op d).2.
Proof.
  destruct op as [df u p| |tid| |now u w|w st|tid st pr|tid|w].
  - unfold step, handler. rewrite serve_create_render. cbv zeta.
    destruct (bool_decide _) eqn:Hp; [done|].
    apply bool_decide_eq_false in Hp. apply dec_stable in Hp.
    destruct (keys_unique _) eqn:Hk; [|done].
    apply rtc_once. by apply cs_submit.
  - unfold step, handler. by rewrite serve_get_renders.
  - unfold step, handler. by rewrite serve_get_render_status.
  - unfold step, handler. by rewrite serve_get_workers.
  - apply request_commit_step, step_request_commits.
  - unfold step, handler. rewrite serve_update_worker_status.
    destruct (find_by _ _ _) as [[j wk]|] eqn:Hf; [|done].
    destruct st as [st|]; [|done].
    destruct (bool_decide (st ∉ _)); [done|].
    destruct (bool_decide (st ≠ _)); [done|].
    destruct (keys_unique _) eqn:Hk; [|done].
    apply rtc_once. by eapply cs_off.
  - unfold step, handler. rewrite serve_update_render_status.
    by destruct (find_by _ _ _).
  - unfold step, handler. rewrite serve_complete_render.
    by destruct (find_by _ _ _).
  - unfold step, handler. rewrite serve_worker_heartbeat.
    by destruct (find_by _ _ _).
Qed.

Lemma run_requests_commits ops d :
  Forall is_request ops → rtc request_commit d (run_ops ops d).
Proof.
  intros Hops. revert d. induction Hops as [|op ops Hop _ IH]; intros d; [done|].
  simpl. etransitivity; [|apply IH].
  destruct op; try done. apply step_request_commits.
Qed.

Lemma sweep_commits now env d : rtc request_commit d (sweep now env d).
Proof.
  destruct (sweep_steps now env d) as (ops & Hops & ->).
  by apply run_requests_commits.
Qed.

(** A property of the empty database that every commit keeps holds in
    every state of the service. *)
Lemma commits_invariant (P : DB → Prop) :
  P empty_db → (∀ d d', P d → commit_step d d' → P d') →
  ∀ d, reachable d → P d.
Proof.
  intros Hinit Hstep. apply reachable_ind_steps; [done|].
  intros op d _ Hd. generalize (step_commits op d).
  induction 1 as [|x y z Hxy _ IH]; [done|]. apply IH. by eapply Hstep.
Qed.

(** ** What a commit leaves alone *)

Lemma same_task_data_refl t : same_task_data t t.
Proof. by repeat split. Qed.

Lemma same_task_data_trans a b c :
  same_task_data a b → same_task_data b c → same_task_data a c.
Proof.
  intros (?&?&?&?&?) (?&?&?&?&?). repeat split; congruence.
Qed.

Lemma worker_kept_alive_evolves w w' : worker_kept_alive w w' → worker_evolves w w'.
Proof. intros (?&?&[?|?]); repeat split; auto. Qed.

Lemma worker_kept_alive_trans a b c :
  worker_kept_alive a b → worker_kept_alive b c → worker_kept_alive a c.
Proof.
  unfold worker_kept_alive. intuition congruence.
Qed.

Lemma worker_evolves_trans a b c :
  worker_evolves a b → worker_evolves b c → worker_evolves a c.
Proof.
  unfold worker_evolves. intuition congruence.
Qed.

Lemma bound_task_lookup i j w t d k x :
  tasks d !! k = Some x →
  tasks (bound i j w t d) !! k =
  Some (if decide (i = k)
        then RenderTask.set_worker_id (Some w) (RenderTask.set_status "rendering" x)
        else x).
Proof.
  intros Hk. unfold bound. cbn [tasks]. destruct (decide (i = k)) as [->|Hne].
  - by rewrite !list_lookup_alter_eq, Hk.
  - by rewrite !list_lookup_alter_ne.
Qed.

Lemma bound_worker_lookup i j w t d k x :
  workers d !! k = Some x →
  workers (bound i j w t d) !! k =
  Some (if decide (j = k)
        then Worker.set_current_task_id (Some (RenderTask.id t))
               (Worker.set_status "Busy" x)
        else x).
Proof.
  intros Hk. unfold bound. cbn [workers]. destruct (decide (j = k)) as [->|Hne].
  - by rewrite !list_lookup_alter_eq, Hk.
  - by rewrite !list_lookup_alter_ne.
Qed.

Lemma switched_off_lookup j d k x :
  workers d !! k = Some x →
  workers (switched_off j d) !! k =
  Some (if decide (j = k)
        then Worker.set_last_heartbeat None (Worker.set_status "Offline" x)
        else x).
Proof.
  intros Hk. unfold switched_off. cbn [workers]. destruct (decide (j = k)) as [->|Hne].
  - by rewrite !list_lookup_alter_eq, Hk.
  - by rewrite !list_lookup_alter_ne.
Qed.

Lemma request_commit_task_frame d d' i t :
  request_commit d d' → tasks d !! i = Some t →
  ∃ t', tasks d' !! i = Some t' ∧ same_task_data t t'.
Proof.
  intros [d0 now u Hn Hr Hk|d0 i0 j w t0 wk Hn Hf Hp Hk] Hi.
  - exists t. split; [done|apply same_task_data_refl].
  - eexists. split; [by apply bound_task_lookup|].
    destruct (decide _); by repeat split.
Qed.

Lemma commit_task_frame d d' i t :
  commit_step d d' → tasks d !! i = Some t →
  ∃ t', tasks d' !! i = Some t' ∧ same_task_data t t'.
Proof.
  intros [d0 df u p Hp Hk|d0 w j wk Hf Hk|d0 d1 Hr] Hi.
  - exists t. split; [|apply same_task_data_refl].
    unfold submitted. cbn [tasks]. by apply lookup_app_l_Some.
  - exists t. split; [done|apply same_task_data_refl].
  - by eapply request_commit_task_frame.
Qed.

Lemma request_commit_worker_frame d d' j w :
  request_commit d d' → workers d !! j = Some w →
  ∃ w', workers d' !! j = Some w' ∧ worker_kept_alive w w'.
Proof.
  intros [d0 now u Hn Hr Hk|d0 i0 j0 w0 t0 wk Hn Hf Hp Hk] Hj.
  - exists w. split; [|by repeat split; auto].
    unfold registered. cbn [workers]. by apply lookup_app_l_Some.
  - eexists. split; [by apply bound_worker_lookup|].
    destruct (decide _); repeat split; auto.
Qed.

Lemma commit_worker_frame d d' j w :
  commit_step d d' → workers d !! j = Some w →
  ∃ w', workers d' !! j = Some w' ∧ worker_evolves w w'.
Proof.
  intros [d0 df u p Hp Hk|d0 w0 j0 wk Hf Hk|d0 d1 Hr] Hj.
  - exists w. split; [done|]. by repeat split; auto.
  - eexists. split; [by apply switched_off_lookup|].
    destruct (decide _); repeat split; auto.
  - destruct (request_commit_worker_frame _ _ _ _ Hr Hj) as (w' & Hw' & Hka).
    exists w'. split; [done|]. by apply worker_kept_alive_evolves.
Qed.

(** Lifting a row-wise relation along a run of commits. *)
Lemma rtc_row_frame {A} (R : DB → DB → Prop) (table : DB → list A)
    (rel : A → A → Prop) d d' k x :
  (∀ x, rel x x) → (∀ a b c, rel a b → rel b c → rel a c) →
  (∀ a b k x, R a b → table a !! k = Some x →
     ∃ y, table b !! k = Some y ∧ rel x y) →
  rtc R d d' → table d !! k = Some x →
  ∃ y, table d' !! k = Some y ∧ rel x y.
Proof.
  intros Hrefl Htrans Hstep Hrtc. revert x.
  induction Hrtc as [|a b c Hab _ IH]; intros x0 Hx; [eauto|].
  destruct (Hstep _ _ _ _ Hab Hx) as (y & Hy & Hxy).
  destruct (IH _ Hy) as (z & Hz & Hyz). eauto.
Qed.

(** X1: no operation and no sweep deletes a task or changes the id,
    priority, progress or timestamps of a stored task. *)
Theorem tasks_keep_their_data op now env d i t :
  tasks d !! i = Some t →
  (∃ t', tasks (step op d).2 !! i = Some t' ∧ same_task_data t t') ∧
  (∃ t', tasks (sweep now env d) !! i = Some t' ∧ same_task_data t t').
Proof.
  intros Hi. split.
  - eapply (rtc_row_frame commit_step tasks); eauto using same_task_data_refl,
      same_task_data_trans, commit_task_frame, step_commits.
  - eapply (rtc_row_frame request_commit tasks); eauto using same_task_data_refl,
      same_task_data_trans, request_commit_task_frame, sweep_commits.
Qed.

Lemma tasks_keep_their_data_witness :
  tasks db_ties !! 1%nat = Some (task_row "tB" "pending" "MEDIUM" 10 None) ∧
  (∃ t', tasks (step (RequestTask 100 "u" "w2") db_ties).2 !! 1%nat = Some t' ∧
     same_task_data (task_row "tB" "pending" "MEDIUM" 10 None) t') ∧
  (∃ t', tasks (sweep 200 (λ _, (200, "u")) db_ties) !! 1%nat = Some t' ∧
     same_task_data (task_row "tB" "pending" "MEDIUM" 10 None) t').
Proof.
  assert (Hi : tasks db_ties !! 1%nat
               = Some (task_row "tB" "pending" "MEDIUM" 10 None)) by reflexivity.
  split; [exact Hi|].
  exact (tasks_keep_their_data (RequestTask 100 "u" "w2") 200 (λ _, (200, "u"))
           db_ties 1 _ Hi).
Defined.

(** X2: no operation and no sweep deletes a worker or changes its id; an
    operation leaves a stored heartbeat as it is or clears it, and a
    sweep leaves every heartbeat as it is and never turns a worker
    Offline: the only status it writes is Busy. *)
Theorem workers_are_never_refreshed op now env d j w :
  workers d !! j = Some w →
  (∃ w', workers (step op d).2 !! j = Some w' ∧ worker_evolves w w') ∧
  (∃ w', workers (sweep now env d) !! j = Some w' ∧ worker_kept_alive w w').
Proof.
  intros Hj. split.
  - eapply (rtc_row_frame commit_step workers); eauto using worker_evolves_trans,
      commit_worker_frame, step_commits. intros x. by repeat split; auto.
  - eapply (rtc_row_frame request_commit workers); eauto using
      worker_kept_alive_trans, request_commit_worker_frame, sweep_commits.
    intros x. by repeat split; auto.
Qed.

Lemma workers_are_never_refreshed_witness :
  workers db_ties !! 0%nat = Some w2_ready ∧
  (∃ w', workers (step (UpdateWorkerStatus "w2" (Some "Offline")) db_ties).2 !! 0%nat
         = Some w' ∧ worker_evolves w2_ready w') ∧
  (∃ w', workers (sweep 200 (λ _, (200, "u")) db_ties) !! 0%nat = Some w' ∧
     worker_kept_alive w2_ready w').
Proof.
  assert (Hj : workers db_ties !! 0%nat = Some w2_ready) by reflexivity.
  split; [exact Hj|].
  exact (workers_are_never_refreshed (UpdateWorkerStatus "w2" (Some "Offline"))
           200 (λ _, (200, "u")) db_ties 0 _ Hj).
Defined.

(** ** Once a task is rendering *)

Lemma request_commit_needs_no_rendering d d' t :
  request_commit d d' → t ∈ tasks d → ¬ is_rendering t.
Proof. intros [d0 now u Hn _ _|d0 i j w t0 wk Hn _ _ _] Ht; by apply Hn. Qed.

Lemma requests_stall_while_rendering d d' t :
  rtc request_commit d d' → t ∈ tasks d → is_rendering t → d' = d.
Proof.
  intros Hrtc Ht Hr. destruct Hrtc as [|a b c Hab _]; [done|].
  by destruct (request_commit_needs_no_rendering _ _ _ Hab Ht).
Qed.

Lemma commit_keeps_rendering d d' i t :
  commit_step d d' → tasks d !! i = Some t → is_rendering t →
  tasks d' !! i = Some t.
Proof.
  intros [d0 df u p Hp Hk|d0 w j wk Hf Hk|d0 d1 Hc] Hi Hr.
  - unfold submitted. cbn [tasks]. by apply lookup_app_l_Some.
  - done.
  - exfalso. eapply request_commit_needs_no_rendering; [done| |done].
    apply list_elem_of_lookup. eauto.
Qed.

(** X3: while some task is rendering, a task request of any worker and a
    sweep change nothing at all: no task is bound, no worker is
    registered. *)
Theorem nothing_is_dispatched_while_rendering now uuid4 worker_id env d t :
  t ∈ tasks d → is_rendering t →
  step (RequestTask now uuid4 worker_id) d
    = (Replied (message "Task is processing", 404), d) ∧
  sweep now env d = d.
Proof.
  intros Ht Hr. split.
  - pose proof (proj2 (request_task_busy_iff now uuid4 worker_id d)
                  (ex_intro _ t (conj Ht Hr))) as Hb.
    pose proof (requests_stall_while_rendering _ _ _
                  (step_request_commits now uuid4 worker_id d) Ht Hr) as Hd.
    destruct (step _ d) as [o d']. simpl in *. by subst.
  - eapply requests_stall_while_rendering; eauto using sweep_commits.
Qed.

Lemma nothing_is_dispatched_while_rendering_witness :
  t1_rendering ∈ tasks db_busy ∧ is_rendering t1_rendering ∧
  step (RequestTask 100 "u" "w9") db_busy
    = (Replied (message "Task is processing", 404), db_busy) ∧
  sweep 100 (λ k, (100 + Z.of_nat k, "u")) db_busy = db_busy.
Proof.
  assert (Ht : t1_rendering ∈ tasks db_busy) by (unfold db_busy; cbn [tasks]; left).
  assert (Hr : is_rendering t1_rendering) by reflexivity.
  split; [exact Ht|]. split; [exact Hr|].
  exact (nothing_is_dispatched_while_rendering 100 "u" "w9"
           (λ k, (100 + Z.of_nat k, "u")) db_busy t1_rendering Ht Hr).
Defined.

(** X4: a rendering task is never touched again: whatever operation is
    served, its row stays exactly as it is, so it is never completed,
    failed or handed back to the queue. *)
Theorem rendering_task_is_never_released op d i t :
  tasks d !! i = Some t → is_rendering t →
  tasks (step op d).2 !! i = Some t.
Proof.
  intros Hi Hr. generalize (step_commits op d).
  generalize (step op d).2. intros d' Hrtc. revert Hi.
  induction Hrtc as [|a b c Hab _ IH]; intros Hi; [done|].
  apply IH. by eapply commit_keeps_rendering.
Qed.

Lemma rendering_task_is_never_released_witness :
  tasks db_busy !! 0%nat = Some t1_rendering ∧ is_rendering t1_rendering ∧
  tasks (step (CompleteTask "t1") db_busy).2 !! 0%nat = Some t1_rendering.
Proof.
  assert (Hi : tasks db_busy !! 0%nat = Some t1_rendering) by reflexivity.
  assert (Hr : is_rendering t1_rendering) by reflexivity.
  split; [exact Hi|]. split; [exact Hr|].
  exact (rendering_task_is_never_released (CompleteTask "t1") db_busy 0 _ Hi Hr).
Defined.

(** ** Invariants of the reachable states *)

Lemma keys_unique_NoDup d :
  keys_unique d = true ↔
  NoDup (RenderTask.id <$> tasks d) ∧ NoDup (Worker.id <$> workers d).
Proof.
  unfold keys_unique. rewrite andb_true_iff, !bool_decide_eq_true. tauto.
Qed.

Lemma commit_step_keys_unique d d' : commit_step d d' → keys_unique d' = true.
Proof. intros [d0 df u p Hp Hk|d0 w j wk Hf Hk|d0 d1 [? ? ? ? ? Hk|? ? ? ? ? ? ? ? ? Hk]]; done. Qed.

(** X5: in every reachable state no two tasks share an id and no two
    workers share an id. *)
Theorem reachable_keys_are_unique d :
  reachable d →
  NoDup (RenderTask.id <$> tasks d) ∧ NoDup (Worker.id <$> workers d).
Proof.
  intros Hd. apply keys_unique_NoDup. revert d Hd.
  apply commits_invariant; [reflexivity|].
  intros d d' _ Hc. by eapply commit_step_keys_unique.
Qed.

Lemma reachable_keys_are_unique_witness :
  reachable db_after_dispatch ∧
  NoDup (RenderTask.id <$> tasks db_after_dispatch) ∧
  NoDup (Worker.id <$> workers db_after_dispatch).
Proof.
  assert (Hr : reachable db_after_dispatch) by (do 2 constructor; constructor).
  split; [exact Hr|]. exact (reachable_keys_are_unique db_after_dispatch Hr).
Defined.

Lemma alter_lookup_inv {A} (f : A → A) i (l : list A) k y :
  alter f i l !! k = Some y →
  ∃ x, l !! k = Some x ∧ y = if decide (i = k) then f x else x.
Proof.
  rewrite list_lookup_alter. destruct (decide (i = k)) as [->|Hne].
  - destruct (l !! k) as [x|]; simpl; [|done]. intros [= <-]. eauto.
  - eauto.
Qed.

Lemma bound_task_lookup_inv i j w t d k y :
  tasks (bound i j w t d) !! k = Some y →
  ∃ x, tasks d !! k = Some x ∧
    y = if decide (i = k)
        then RenderTask.set_worker_id (Some w) (RenderTask.set_status "rendering" x)
        else x.
Proof.
  unfold bound. cbn [tasks]. intros Hy.
  apply alter_lookup_inv in Hy as (x1 & Hx1 & ->).
  apply alter_lookup_inv in Hx1 as (x & Hx & ->).
  exists x. split; [done|]. by destruct (decide _).
Qed.

Lemma bound_worker_lookup_inv i j w t d k y :
  workers (bound i j w t d) !! k = Some y →
  ∃ x, workers d !! k = Some x ∧
    y = if decide (j = k)
        then Worker.set_current_task_id (Some (RenderTask.id t))
               (Worker.set_status "Busy" x)
        else x.
Proof.
  unfold bound. cbn [workers]. intros Hy.
  apply alter_lookup_inv in Hy as (x1 & Hx1 & ->).
  apply alter_lookup_inv in Hx1 as (x & Hx & ->).
  exists x. split; [done|]. by destruct (decide _).
Qed.

Lemma switched_off_lookup_inv j d k y :
  workers (switched_off j d) !! k = Some y →
  ∃ x, workers d !! k = Some x ∧
    y = if decide (j = k)
        then Worker.set_last_heartbeat None (Worker.set_status "Offline" x)
        else x.
Proof.
  unfold switched_off. cbn [workers]. intros Hy.
  apply alter_lookup_inv in Hy as (x1 & Hx1 & ->).
  apply alter_lookup_inv in Hx1 as (x & Hx & ->).
  exists x. split; [done|]. by destruct (decide _).
Qed.

(** The shape of a stored task: a listed priority, waiting or
    rendering, no progress. *)
Lemma commit_task_shape (P : RenderTask.t → Prop) d d' :
  (∀ u p c c', p ∈ PRIORITY → P (RenderTask.mk u "pending" p 0 c c' None)) →
  (∀ x w, P x →
     P (RenderTask.set_worker_id (Some w) (RenderTask.set_status "rendering" x))) →
  commit_step d d' →
  (∀ t, t ∈ tasks d → P t) → ∀ t, t ∈ tasks d' → P t.
Proof.
  intros Hnew Hbind Hc Hd t Ht.
  destruct Hc as [d0 df u p Hp Hk|d0 w j wk Hf Hk|d0 d1 Hr].
  - unfold submitted in Ht. cbn [tasks] in Ht.
    apply elem_of_app in Ht as [Ht|Ht]; [by apply Hd|].
    apply list_elem_of_singleton in Ht as ->. by apply Hnew.
  - by apply Hd.
  - destruct Hr as [d0 now u Hn Hr Hk|d0 i j w t0 wk Hn Hf Hp Hk].
    + by apply Hd.
    + apply list_elem_of_lookup in Ht as [k Hk'].
      apply bound_task_lookup_inv in Hk' as (x & Hx & ->).
      assert (Hin : x ∈ tasks d0) by (apply list_elem_of_lookup; eauto).
      destruct (decide _); [apply Hbind|]; by apply Hd.
Qed.

Lemma priorities_listed_invariant d :
  reachable d → ∀ t, t ∈ tasks d → RenderTask.priority t ∈ PRIORITY.
Proof.
  revert d.
  apply (commits_invariant (λ d, ∀ t, t ∈ tasks d → RenderTask.priority t ∈ PRIORITY)).
  - intros t Ht. by apply elem_of_nil in Ht.
  - intros d d' Hd Hc. eapply (commit_task_shape _ d d'); eauto.
Qed.

(** X6: in every reachable state every task carries one of the four
    listed priorities. *)
Theorem reachable_priorities_are_listed d t :
  reachable d → t ∈ tasks d → RenderTask.priority t ∈ PRIORITY.
Proof. intros Hd. by apply priorities_listed_invariant. Qed.

Lemma reachable_priorities_are_listed_witness :
  reachable db_ties ∧ task_row "tA" "pending" "MEDIUM" 20 None ∈ tasks db_ties ∧
  RenderTask.priority (task_row "tA" "pending" "MEDIUM" 20 None) ∈ PRIORITY.
Proof.
  assert (Ht : task_row "tA" "pending" "MEDIUM" 20 None ∈ tasks db_ties)
    by (unfold db_ties; cbn [tasks]; left).
  split; [exact db_ties_reachable|]. split; [exact Ht|].
  exact (reachable_priorities_are_listed db_ties _ db_ties_reachable Ht).
Defined.

(** X7: in every reachable state every task is waiting or rendering and
    its progress is 0: no sequence of operations completes a task,
    fails it or records progress. *)
Theorem reachable_tasks_never_finish d t :
  reachable d → t ∈ tasks d →
  (is_pending t ∨ is_rendering t) ∧ RenderTask.progress t = 0%Q.
Proof.
  intros Hd. revert t. revert d Hd.
  apply (commits_invariant
           (λ d, ∀ t, t ∈ tasks d →
              (is_pending t ∨ is_rendering t) ∧ RenderTask.progress t = 0%Q)).
  - intros t Ht. by apply elem_of_nil in Ht.
  - intros d d' Hd Hc. eapply (commit_task_shape _ d d'); eauto.
    + intros u p c c' _. split; [by left|done].
    + intros x w [_ Hp]. split; [by right|done].
Qed.

Lemma reachable_tasks_never_finish_witness :
  reachable db_busy ∧ t1_rendering ∈ tasks db_busy ∧
  (is_pending t1_rendering ∨ is_rendering t1_rendering) ∧
  RenderTask.progress t1_rendering = 0%Q.
Proof.
  assert (Ht : t1_rendering ∈ tasks db_busy) by (unfold db_busy; cbn [tasks]; left).
  split; [exact db_busy_reachable|]. split; [exact Ht|].
  exact (reachable_tasks_never_finish db_busy _ db_busy_reachable Ht).
Defined.

Lemma commit_one_rendering d d' :
  commit_step d d' →
  (∀ i k t u, tasks d !! i = Some t → tasks d !! k = Some u →
     is_rendering t → is_rendering u → i = k) →
  ∀ i k t u, tasks d' !! i = Some t → tasks d' !! k = Some u →
    is_rendering t → is_rendering u → i = k.
Proof.
  intros Hc Hd i k t u Hi Hk Ht Hu.
  destruct Hc as [d0 df uid p Hp Hku|d0 w j wk Hf Hku|d0 d1 Hr].
  - unfold submitted in Hi, Hk. cbn [tasks] in Hi, Hk.
    apply lookup_app_Some in Hi as [Hi|[_ Hi]];
      apply lookup_app_Some in Hk as [Hk|[_ Hk]].
    + by eapply Hd.
    + apply list_lookup_singleton_Some in Hk as [_ <-]. discriminate Hu.
    + apply list_lookup_singleton_Some in Hi as [_ <-]. discriminate Ht.
    + apply list_lookup_singleton_Some in Hi as [_ <-]. discriminate Ht.
  - by eapply Hd.
  - destruct Hr as [d0 now uid Hn Hr Hku|d0 i0 j w t0 wk Hn Hf Hp Hku].
    + by eapply Hd.
    + apply bound_task_lookup_inv in Hi as (x & Hx & ->).
      apply bound_task_lookup_inv in Hk as (y & Hy & ->).
      assert (Hxin : x ∈ tasks d0) by (apply list_elem_of_lookup; eauto).
      assert (Hyin : y ∈ tasks d0) by (apply list_elem_of_lookup; eauto).
      destruct (decide (i0 = i)) as [<-|]; [|by destruct (Hn x Hxin)].
      destruct (decide (i0 = k)) as [<-|]; [done|by destruct (Hn y Hyin)].
Qed.

(** X8: in every reachable state at most one task is rendering: the
    service never has two tasks in progress, however many workers and
    waiting tasks there are. *)
Theorem at_most_one_task_renders d i k t u :
  reachable d →
  tasks d !! i = Some t → tasks d !! k = Some u →
  is_rendering t → is_rendering u → i = k.
Proof.
  intros Hd. revert i k t u. revert d Hd.
  apply (commits_invariant
           (λ d, ∀ i k t u, tasks d !! i = Some t → tasks d !! k = Some u →
              is_rendering t → is_rendering u → i = k)).
  - intros i k t u Hi. done.
  - intros d d' Hd Hc. by apply (commit_one_rendering d d').
Qed.

Lemma at_most_one_task_renders_witness :
  reachable db_busy ∧
  tasks db_busy !! 0%nat = Some t1_rendering ∧
  tasks db_busy !! 0%nat = Some t1_rendering ∧
  is_rendering t1_rendering ∧ is_rendering t1_rendering ∧ 0%nat = 0%nat.
Proof.
  assert (Hi : tasks db_busy !! 0%nat = Some t1_rendering) by reflexivity.
  assert (Hr : is_rendering t1_rendering) by reflexivity.
  split; [exact db_busy_reachable|]. repeat (split; [assumption|]).
  exact (at_most_one_task_renders db_busy 0 0 _ _ db_busy_reachable Hi Hi Hr Hr).
Defined.

(** *** Ready workers *)

Lemma select_workers_app p rows x :
  select_workers p (rows ++ [x]) =
  select_workers p rows ++ (if p x then [(length rows, x)] else []).
Proof.
  unfold select_workers. rewrite indexed_app, filter_app. f_equal.
  rewrite filter_cons, filter_nil. cbn [snd].
  destruct (decide (p x = true)) as [E|E].
  - by rewrite E.
  - apply not_true_is_false in E. by rewrite E.
Qed.

Lemma length_filter_fmap {A} (P : A → Prop) `{!∀ x, Decision (P x)}
    (g : A → A) (l : list A) :
  (∀ x, P (g x) → P x) →
  (length (filter P (g <$> l)) ≤ length (filter P l))%nat.
Proof.
  intros Hg. induction l as [|a l IH]; [done|].
  rewrite fmap_cons, !filter_cons.
  destruct (decide (P (g a))) as [Pga|nPga].
  - rewrite decide_True by (by apply Hg). simpl. lia.
  - destruct (decide (P a)); simpl; lia.
Qed.

Lemma select_workers_alter p f j rows :
  (∀ x, p (f x) = true → p x = true) →
  (length (select_workers p (alter f j rows))
   ≤ length (select_workers p rows))%nat.
Proof.
  intros Hf. unfold select_workers. rewrite indexed_alter.
  apply length_filter_fmap. intros [k x]. unfold at_row. simpl.
  destruct (decide _); [apply Hf|done].
Qed.

Lemma commit_one_ready d d' :
  commit_step d d' →
  (length (select_workers is_ready (workers d)) ≤ 1)%nat →
  (length (select_workers is_ready (workers d')) ≤ 1)%nat.
Proof.
  intros Hc Hd.
  destruct Hc as [d0 df uid p Hp Hku|d0 w j wk Hf Hku|d0 d1 Hr].
  - done.
  - unfold switched_off. cbn [workers].
    etransitivity; [apply select_workers_alter; done|].
    etransitivity; [apply select_workers_alter; done|]. done.
  - destruct Hr as [d0 now uid Hn Hr Hku|d0 i0 j w t0 wk Hn Hf Hp Hku].
    + unfold registered. cbn [workers]. rewrite select_workers_app, Hr. simpl. lia.
    + unfold bound. cbn [workers].
      etransitivity; [apply select_workers_alter; done|].
      etransitivity; [apply select_workers_alter; done|]. done.
Qed.

(** X9: in every reachable state at most one worker is Ready: a worker
    is registered only when none is Ready, and no operation turns a
    Busy or Offline worker Ready again. *)
Theorem at_most_one_worker_is_ready d :
  reachable d → (length (select_workers is_ready (workers d)) ≤ 1)%nat.
Proof.
  revert d. apply commits_invariant; [simpl; lia|].
  intros d d' Hd Hc. by apply (commit_one_ready d d').
Qed.

Lemma at_most_one_worker_is_ready_witness :
  reachable db_ties ∧ (length (select_workers is_ready (workers db_ties)) ≤ 1)%nat.
Proof.
  split; [exact db_ties_reachable|].
  exact (at_most_one_worker_is_ready db_ties db_ties_reachable).
Defined.

(** *** The pairing seen from the worker *)

Lemma worker_paired_tasks d d' wk :
  (∀ i t, tasks d !! i = Some t → is_rendering t → tasks d' !! i = Some t) →
  worker_paired d wk → worker_paired d' wk.
Proof.
  intros Hkeep [Hb Hc]. split; [done|].
  intros tid Htid. destruct (Hc tid Htid) as (i & t & Hi & Hid & Hr & Hw).
  exists i, t. eauto.
Qed.

Lemma commit_worker_paired d d' :
  commit_step d d' →
  (∀ j wk, workers d !! j = Some wk → worker_paired d wk) →
  ∀ j wk, workers d' !! j = Some wk → worker_paired d' wk.
Proof.
  intros Hc Hd k wk' Hk.
  destruct Hc as [d0 df uid p Hp Hku|d0 w j wk Hf Hku|d0 d1 Hr].
  - eapply worker_paired_tasks; [|by eapply Hd].
    intros i t Hi _. unfold submitted. cbn [tasks]. by apply lookup_app_l_Some.
  - apply switched_off_lookup_inv in Hk as (x & Hx & ->).
    destruct (Hd _ _ Hx) as [Hb Hc]. destruct (decide _); [|by split].
    split; [intros Hs; discriminate Hs|]. exact Hc.
  - destruct Hr as [d0 now uid Hn Hr Hku|d0 i0 j w t0 wk Hn Hf Hp Hku].
    + unfold registered in Hk. cbn [workers] in Hk.
      apply lookup_app_Some in Hk as [Hk|[_ Hk]]; [by eapply Hd|].
      apply list_lookup_singleton_Some in Hk as [_ <-].
      split; [intros Hs; discriminate Hs|]. intros tid Htid. discriminate Htid.
    + apply bound_worker_lookup_inv in Hk as (x & Hx & ->).
      destruct (Hd _ _ Hx) as [Hb Hc].
      assert (Hnone : Worker.current_task_id x = None).
      { destruct (Worker.current_task_id x) as [tid|] eqn:E; [|done].
        destruct (Hc tid eq_refl) as (i & t & Hi & _ & Hren & _).
        destruct (Hn t); [apply list_elem_of_lookup; eauto|done]. }
      destruct (decide (j = k)) as [<-|Hne].
      * apply find_by_Some in Hf as [Hj Hid]. rewrite Hj in Hx.
        injection Hx as <-. apply next_pending_Some in Hp as (Hi0 & _).
        split; [intros _; simpl; eauto|].
        intros tid Htid. simpl in Htid. injection Htid as <-.
        eexists i0, _. split; [by apply bound_task_lookup|].
        rewrite decide_True by done.
        split; [done|]. split; [done|]. simpl. congruence.
      * split; [done|]. intros tid Htid. congruence.
Qed.

(** X10: in every reachable state a Busy worker names a current task, and
    whenever a worker names a current task, that task is stored, is
    rendering and names this worker; this holds on after the worker is
    switched Offline, since its task reference is never cleared. *)
Theorem busy_worker_holds_rendering_task d j wk :
  reachable d → workers d !! j = Some wk →
  (Worker.status wk = "Busy" → is_Some (Worker.current_task_id wk)) ∧
  (∀ tid, Worker.current_task_id wk = Some tid →
     ∃ i t, tasks d !! i = Some t ∧ RenderTask.id t = tid ∧
       is_rendering t ∧ RenderTask.worker_id t = Some (Worker.id wk)).
Proof.
  intros Hd. revert j wk. revert d Hd.
  apply (commits_invariant
           (λ d, ∀ j wk, workers d !! j = Some wk → worker_paired d wk)).
  - intros j wk Hj. done.
  - intros d d' Hd Hc. by apply (commit_worker_paired d d').
Qed.

Lemma busy_worker_holds_rendering_task_witness :
  reachable db_busy ∧ workers db_busy !! 1%nat = Some w1_busy ∧
  (Worker.status w1_busy = "Busy" → is_Some (Worker.current_task_id w1_busy)) ∧
  (∀ tid, Worker.current_task_id w1_busy = Some tid →
     ∃ i t, tasks db_busy !! i = Some t ∧ RenderTask.id t = tid ∧
       is_rendering t ∧ RenderTask.worker_id t = Some (Worker.id w1_busy)).
Proof.
  assert (Hj : workers db_busy !! 1%nat = Some w1_busy) by reflexivity.
  split; [exact db_busy_reachable|]. split; [exact Hj|].
  exact (busy_worker_holds_rendering_task db_busy 1 w1_busy db_busy_reachable Hj).
Defined.

(** ** Primary keys under the commits *)

Lemma fmap_alter_same {A B} (g : A → B) (f : A → A) i (l : list A) :
  (∀ x, g (f x) = g x) → g <$> alter f i l = g <$> l.
Proof.
  intros Hf. rewrite (list_fmap_alter g f (λ y, y)).
  - by apply list_alter_id.
  - apply Forall_forall. intros x _. apply Hf.
Qed.

Lemma keys_unique_bound i j w t d :
  keys_unique (bound i j w t d) = keys_unique d.
Proof.
  unfold keys_unique, bound. cbn [tasks workers].
  by rewrite !fmap_alter_same.
Qed.

Lemma keys_unique_switched_off j d :
  keys_unique (switched_off j d) = keys_unique d.
Proof.
  unfold keys_unique, switched_off. cbn [tasks workers].
  by rewrite !fmap_alter_same.
Qed.

Lemma NoDup_snoc_fresh (l : list string) x : NoDup (l ++ [x]) ↔ NoDup l ∧ x ∉ l.
Proof.
  rewrite NoDup_app. split.
  - intros (Hl & Hx & _). split; [done|]. intros Hin. apply (Hx x Hin). left.
  - intros [Hl Hx]. split; [done|]. split; [|apply NoDup_singleton].
    intros y Hy Hy'. apply list_elem_of_singleton in Hy' as ->. done.
Qed.

Lemma id_fresh {A} (key_of : A → string) (rows : list A) x :
  x ∉ key_of <$> rows ↔ ∀ r, r ∈ rows → key_of r ≠ x.
Proof.
  rewrite list_elem_of_fmap. split.
  - intros H r Hr E. apply H. eauto.
  - intros H (r & -> & Hr). by apply (H r).
Qed.

Lemma keys_unique_submitted defaults uuid4 priority d :
  keys_unique d = true →
  keys_unique (submitted defaults uuid4 priority d) = true ↔
  ∀ t, t ∈ tasks d → RenderTask.id t ≠ uuid4.
Proof.
  rewrite !keys_unique_NoDup. unfold submitted. cbn [tasks workers].
  rewrite fmap_app. simpl. rewrite NoDup_snoc_fresh, id_fresh. tauto.
Qed.

Lemma keys_unique_registered now uuid4 d :
  keys_unique d = true →
  keys_unique (registered now uuid4 d) = true ↔
  ∀ w, w ∈ workers d → Worker.id w ≠ uuid4.
Proof.
  rewrite !keys_unique_NoDup. unfold registered. cbn [tasks workers].
  rewrite fmap_app. simpl. rewrite NoDup_snoc_fresh, id_fresh. tauto.
Qed.

(** With unique keys the lookup by key returns the row wherever it is. *)
Lemma find_by_unique {A} (key_of : A → string) (rows : list A) j r :
  NoDup (key_of <$> rows) → rows !! j = Some r →
  find_by key_of (key_of r) rows = Some (j, r).
Proof.
  intros Hnd Hj. destruct (find_by key_of (key_of r) rows) as [[j' r']|] eqn:Hf.
  - apply find_by_Some in Hf as [Hj' Hk].
    assert (j' = j) as ->.
    { eapply (NoDup_lookup (key_of <$> rows)); [done| |].
      - rewrite list_lookup_fmap, Hj'. simpl. by rewrite Hk.
      - by rewrite list_lookup_fmap, Hj. }
    congruence.
  - eapply find_by_None in Hf; [by destruct Hf|].
    apply list_elem_of_lookup. eauto.
Qed.

(** ** Submitting and reading back *)

(** X11: on a database with unique keys, a submission whose priority
    (MEDIUM when none is given) is not listed is refused with code 400;
    one whose drawn id is already taken ends in an integrity error; any
    other is queued as a waiting task without progress and without a
    worker.  The first two change nothing. *)
Theorem submit_task_outcomes defaults uuid4 priority d :
  keys_unique d = true →
  (default "MEDIUM" priority ∉ PRIORITY →
   step (SubmitTask defaults uuid4 priority) d
     = (Replied (error "Invalid priority", 400), d)) ∧
  (default "MEDIUM" priority ∈ PRIORITY →
   (∃ t, t ∈ tasks d ∧ RenderTask.id t = uuid4) →
   step (SubmitTask defaults uuid4 priority) d = (Uncaught IntegrityError, d)) ∧
  (default "MEDIUM" priority ∈ PRIORITY →
   (∀ t, t ∈ tasks d → RenderTask.id t ≠ uuid4) →
   step (SubmitTask defaults uuid4 priority) d
     = (Replied (task_queued uuid4, 201),
        mkDB (tasks d ++ [RenderTask.mk uuid4 "pending" (default "MEDIUM" priority)
                            0 (default_created_at defaults)
                            (default_updated_at defaults) None])
             (workers d))).
Proof.
  intros Hk. unfold step, handler. rewrite serve_create_render. cbv zeta.
  pose proof (keys_unique_submitted defaults uuid4 (default "MEDIUM" priority) d Hk)
    as Hfresh. unfold submitted in Hfresh.
  split; [|split].
  - intros Hp. by rewrite bool_decide_eq_true_2.
  - intros Hp (t & Ht & Hid). rewrite bool_decide_eq_false_2 by (by intros ?).
    destruct (keys_unique (mkDB _ _)) eqn:E; [|done].
    destruct (proj1 Hfresh eq_refl t Ht Hid).
  - intros Hp Hnew. rewrite bool_decide_eq_false_2 by (by intros ?).
    by rewrite (proj2 Hfresh Hnew).
Qed.

Lemma submit_task_outcomes_witness :
  keys_unique db_busy = true ∧
  default "MEDIUM" None ∈ PRIORITY ∧
  (∀ t, t ∈ tasks db_busy → RenderTask.id t ≠ "t3") ∧
  step (SubmitTask (mkDefaults 7 7) "t3" None) db_busy
    = (Replied (task_queued "t3", 201),
       mkDB (tasks db_busy ++ [RenderTask.mk "t3" "pending" "MEDIUM" 0 7 7 None])
            (workers db_busy)).
Proof.
  assert (Hk : keys_unique db_busy = true) by reflexivity.
  assert (Hp : default "MEDIUM" None ∈ PRIORITY) by (simpl; set_solver).
  assert (Hf : ∀ t, t ∈ tasks db_busy → RenderTask.id t ≠ "t3").
  { intros t Ht. unfold db_busy in Ht. cbn [tasks] in Ht.
    apply elem_of_cons in Ht as [->|Ht]; [discriminate|].
    apply list_elem_of_singleton in Ht as ->. discriminate. }
  split; [exact Hk|]. split; [exact Hp|]. split; [exact Hf|].
  exact (proj2 (proj2 (submit_task_outcomes (mkDefaults 7 7) "t3" None db_busy Hk))
           Hp Hf).
Defined.

Lemma serve_get_render_status_reply task_id d :
  serve (get_render_status task_id) d =
  match find_by RenderTask.id task_id (tasks d) with
  | None => (Replied (error "Task not found", 404), d)
  | Some (_, task) =>
      (Replied (jsonify (task_info (RenderTask.id task) (RenderTask.status task)
                           (RenderTask.priority task) (RenderTask.progress task)
                           (RenderTask.created_at task) (RenderTask.updated_at task))),
       d)
  end.
Proof. run_handler. by destruct (find_by _ _ _) as [[i t]|]. Qed.

(** X12: a task that has just been queued can be read back under its id:
    the lookup reports it as pending, with the priority it was given
    (MEDIUM when none was), progress 0 and the timestamps fixed when
    the model class was defined. *)
Theorem submitted_task_is_read_back defaults uuid4 priority d d' :
  step (SubmitTask defaults uuid4 priority) d
    = (Replied (task_queued uuid4, 201), d') →
  step (GetTask uuid4) d'
    = (Replied (jsonify (task_info uuid4 "pending" (default "MEDIUM" priority) 0
                           (default_created_at defaults)
                           (default_updated_at defaults))), d').
Proof.
  unfold step, handler. rewrite serve_create_render. cbv zeta.
  destruct (bool_decide _); [intros Ho; discriminate Ho|].
  destruct (keys_unique _) eqn:Hk; intros Ho; [|discriminate Ho].
  injection Ho as <-. rewrite serve_get_render_status_reply.
  apply keys_unique_NoDup in Hk as [Hk _]. cbn [tasks] in *.
  rewrite fmap_app in Hk. simpl in Hk. apply NoDup_snoc_fresh in Hk as [_ Hk].
  rewrite id_fresh in Hk. rewrite find_by_app.
  rewrite (proj2 (find_by_None RenderTask.id uuid4 (tasks d)) Hk).
  by rewrite decide_True.
Qed.

Lemma submitted_task_is_read_back_witness :
  step (SubmitTask (mkDefaults 7 8) "t3" (Some "RUSH")) db_busy
    = (Replied (task_queued "t3", 201),
       (step (SubmitTask (mkDefaults 7 8) "t3" (Some "RUSH")) db_busy).2) ∧
  step (GetTask "t3") (step (SubmitTask (mkDefaults 7 8) "t3" (Some "RUSH")) db_busy).2
    = (Replied (jsonify (task_info "t3" "pending" "RUSH" 0 7 8)),
       (step (SubmitTask (mkDefaults 7 8) "t3" (Some "RUSH")) db_busy).2).
Proof.
  assert (Hs : step (SubmitTask (mkDefaults 7 8) "t3" (Some "RUSH")) db_busy
               = (Replied (task_queued "t3", 201),
                  (step (SubmitTask (mkDefaults 7 8) "t3" (Some "RUSH")) db_busy).2))
    by reflexivity.
  split; [exact Hs|].
  exact (submitted_task_is_read_back (mkDefaults 7 8) "t3" (Some "RUSH") db_busy _ Hs).
Defined.

(** ** Priority bands *)

Lemma ordering_listed t k :
  ordering t = Some k ↔ PRIORITY !! k = Some (RenderTask.priority t).
Proof.
  unfold ordering, PRIORITY, enumerate. simpl.
  repeat case_bool_decide; split; intros Hk;
    repeat (destruct k as [|k]; simpl in *; try congruence).
Qed.

Lemma ordering_unlisted t :
  ordering t = None ↔ RenderTask.priority t ∉ PRIORITY.
Proof.
  unfold ordering, PRIORITY, enumerate. simpl.
  rewrite !elem_of_cons, elem_of_nil.
  repeat case_bool_decide; split; intros Hk; try congruence; try tauto.
Qed.

(** X13: in every reachable state with a waiting RUSH task, the task the
    dispatcher takes is a RUSH task, wherever the RUSH task is stored
    and whenever it was submitted. *)
Theorem rush_task_is_taken_first d u :
  reachable d → u ∈ tasks d → is_pending u → RenderTask.priority u = "RUSH" →
  ∃ i t, next_pending (tasks d) = Some (i, t) ∧ is_pending t ∧
    RenderTask.priority t = "RUSH".
Proof.
  intros Hd Hu Hp Hrush.
  destruct (next_pending (tasks d)) as [[i t]|] eqn:Hn.
  2: { exfalso. eapply next_pending_None in Hn; eauto. }
  exists i, t. split; [done|].
  destruct (next_pending_Some _ _ _ Hn) as (Hi & Hpt & Hmin).
  split; [done|].
  apply list_elem_of_lookup in Hu as [k Hk].
  destruct (Hmin k u Hk Hp) as [Hle _].
  assert (Hou : ordering u = Some 0%nat) by (apply ordering_listed; by rewrite Hrush).
  rewrite Hou in Hle.
  destruct (ordering t) as [r|] eqn:Hot.
  - simpl in Hle. apply bool_decide_eq_true in Hle.
    assert (r = 0%nat) as -> by lia.
    apply ordering_listed in Hot. simpl in Hot. congruence.
  - apply ordering_unlisted in Hot. destruct Hot.
    apply (priorities_listed_invariant d Hd). apply list_elem_of_lookup. eauto.
Qed.

Lemma rush_task_is_taken_first_witness :
  reachable db_after_rush ∧
  task_row "tR" "pending" "RUSH" 9 None ∈ tasks db_after_rush ∧
  is_pending (task_row "tR" "pending" "RUSH" 9 None) ∧
  RenderTask.priority (task_row "tR" "pending" "RUSH" 9 None) = "RUSH" ∧
  ∃ i t, next_pending (tasks db_after_rush) = Some (i, t) ∧ is_pending t ∧
    RenderTask.priority t = "RUSH".
Proof.
  assert (Hr : reachable db_after_rush) by (do 2 constructor; constructor).
  assert (Hu : task_row "tR" "pending" "RUSH" 9 None ∈ tasks db_after_rush)
    by (vm_compute; right; left).
  split; [exact Hr|]. split; [exact Hu|]. split; [reflexivity|]. split; [reflexivity|].
  exact (rush_task_is_taken_first db_after_rush _ Hr Hu eq_refl eq_refl).
Defined.

(** ** What a successful request leaves behind *)

Lemma alter_twice_insert {A} (f g : A → A) i (l : list A) x :
  l !! i = Some x → alter g i (alter f i l) = <[i := g (f x)]> l.
Proof.
  intros Hi. apply list_eq. intros k.
  destruct (decide (i = k)) as [<-|Hne].
  - rewrite !list_lookup_alter_eq, Hi. simpl.
    by rewrite list_lookup_insert_eq by (by eapply lookup_lt_Some).
  - by rewrite !list_lookup_alter_ne, list_lookup_insert_ne.
Qed.

(** X14: when a request is handed a task, that task is the dispatcher's
    choice; in the task table exactly its row changes, to rendering
    with the id of the worker it is bound to.  That worker is the
    caller when some worker was Ready, and otherwise the worker just
    registered under the drawn id, whoever the caller is; its record is
    Busy and names the task. *)
Theorem request_task_binding now uuid4 worker_id d tid d' :
  step (RequestTask now uuid4 worker_id) d
    = (Replied (jsonify (task_assigned tid)), d') →
  ∃ i t j wk,
    next_pending (tasks d) = Some (i, t) ∧ RenderTask.id t = tid ∧
    tasks d' = <[i := RenderTask.set_worker_id (Some (Worker.id wk))
                        (RenderTask.set_status "rendering" t)]> (tasks d) ∧
    Worker.id wk = (if bool_decide (select_workers is_ready (workers d) = [])
                    then uuid4 else worker_id) ∧
    find_by Worker.id (Worker.id wk) (workers d') = Some (j, wk) ∧
    Worker.status wk = "Busy" ∧ Worker.current_task_id wk = Some tid.
Proof.
  rewrite step_request_task.
  destruct (first _); [intros Ho; discriminate Ho|].
  assert (Hd : ∀ w d0, tasks d0 = tasks d →
            outcome_of (dispatch w d0) = (Replied (jsonify (task_assigned tid)), d') →
            ∃ i t j wk,
              next_pending (tasks d) = Some (i, t) ∧ RenderTask.id t = tid ∧
              tasks d' = <[i := RenderTask.set_worker_id (Some (Worker.id wk))
                                  (RenderTask.set_status "rendering" t)]> (tasks d) ∧
              Worker.id wk = w ∧
              find_by Worker.id (Worker.id wk) (workers d') = Some (j, wk) ∧
              Worker.status wk = "Busy" ∧ Worker.current_task_id wk = Some tid).
  { intros w d0 Ht. rewrite outcome_of_dispatch, Ht. unfold jsonify.
    destruct (find_by _ _ _) as [[j wk0]|] eqn:Hf; [|intros Ho; discriminate Ho].
    destruct (next_pending _) as [[i t]|] eqn:Hn; [|intros Ho; discriminate Ho].
    destruct (keys_unique (bound _ _ _ _ _)); intros Ho; [|discriminate Ho].
    injection Ho as <- <-.
    destruct (next_pending_Some _ _ _ Hn) as (Hi & _).
    destruct (find_by_Some _ _ _ _ _ Hf) as [Hj Hid].
    exists i, t, j,
      (Worker.set_current_task_id (Some (RenderTask.id t))
         (Worker.set_status "Busy" wk0)).
    split; [done|]. split; [done|]. split.
    { unfold bound. cbn [tasks]. rewrite Ht. simpl. rewrite Hid.
      by apply alter_twice_insert. }
    split; [done|]. split; [|done].
    unfold bound. cbn [workers]. simpl. rewrite Hid.
    rewrite !find_by_alter, Hf by done. unfold at_row. simpl.
    by rewrite !decide_True by done. }
  destruct (bool_decide (length _ = 0%nat)) eqn:Hz.
  - apply bool_decide_eq_true, length_zero_nil in Hz.
    rewrite bool_decide_eq_true_2 by done.
    destruct (keys_unique _); [|intros Ho; discriminate Ho]. by apply Hd.
  - apply bool_decide_eq_false in Hz.
    rewrite bool_decide_eq_false_2 by (intros E; by rewrite E in Hz).
    by apply Hd.
Qed.

Lemma request_task_binding_witness :
  step (RequestTask 100 "u" "w1") db_offline_queue
    = (Replied (jsonify (task_assigned "t5")),
       (step (RequestTask 100 "u" "w1") db_offline_queue).2) ∧
  ∃ i t j wk,
    next_pending (tasks db_offline_queue) = Some (i, t) ∧ RenderTask.id t = "t5" ∧
    tasks (step (RequestTask 100 "u" "w1") db_offline_queue).2
      = <[i := RenderTask.set_worker_id (Some (Worker.id wk))
                 (RenderTask.set_status "rendering" t)]> (tasks db_offline_queue) ∧
    Worker.id wk
      = (if bool_decide (select_workers is_ready (workers db_offline_queue) = [])
         then "u" else "w1") ∧
    find_by Worker.id (Worker.id wk)
      (workers (step (RequestTask 100 "u" "w1") db_offline_queue).2) = Some (j, wk) ∧
    Worker.status wk = "Busy" ∧ Worker.current_task_id wk = Some "t5".
Proof.
  assert (Hs : step (RequestTask 100 "u" "w1") db_offline_queue
               = (Replied (jsonify (task_assigned "t5")),
                  (step (RequestTask 100 "u" "w1") db_offline_queue).2))
    by reflexivity.
  split; [exact Hs|].
  exact (request_task_binding 100 "u" "w1" db_offline_queue "t5" _ Hs).
Defined.

(** The caller [w1] is known but Offline and no worker is Ready: the
    task goes to the new worker [u]. *)
Example request_of_offline_worker_binds_new_worker :
  (step (RequestTask 100 "u" "w1") db_offline_queue).2
  = mkDB [task_row "t5" "rendering" "LOW" 4 (Some "u")]
         [Worker.mk "w1" "Offline" None None;
          Worker.mk "u" "Busy" (Some 100) (Some "t5")].
Proof. vm_compute. reflexivity. Qed.

(** ** Worker status updates *)

(** X15: for a known worker on a database with unique keys, the status
    update to Offline succeeds: the record becomes Offline with no
    heartbeat and keeps its id and its current task; nothing else
    changes.  The updates to Ready and to Busy end in a [TypeError] and
    change nothing, so no request can bring a worker back. *)
Theorem update_worker_status_outcomes worker_id j wk d :
  keys_unique d = true →
  find_by Worker.id worker_id (workers d) = Some (j, wk) →
  step (UpdateWorkerStatus worker_id (Some "Offline")) d
    = (Replied (jsonify (status_message "Offline" "Worker status updated")),
       mkDB (tasks d)
            (<[j := Worker.mk (Worker.id wk) "Offline" None
                      (Worker.current_task_id wk)]> (workers d))) ∧
  step (UpdateWorkerStatus worker_id (Some "Ready")) d = (Uncaught TypeError, d) ∧
  step (UpdateWorkerStatus worker_id (Some "Busy")) d = (Uncaught TypeError, d).
Proof.
  intros Hk Hf. unfold step, handler. rewrite !serve_update_worker_status, Hf.
  split; [|by split].
  rewrite bool_decide_eq_false_2 by (intros E; apply E; set_solver).
  rewrite bool_decide_eq_false_2 by (by intros E).
  rewrite keys_unique_switched_off, Hk. f_equal.
  unfold switched_off. f_equal.
  apply find_by_Some in Hf as [Hj _]. by rewrite (alter_twice_insert _ _ _ _ wk).
Qed.

Lemma update_worker_status_outcomes_witness :
  keys_unique db_busy = true ∧
  find_by Worker.id "w1" (workers db_busy) = Some (1%nat, w1_busy) ∧
  step (UpdateWorkerStatus "w1" (Some "Offline")) db_busy
    = (Replied (jsonify (status_message "Offline" "Worker status updated")),
       mkDB (tasks db_busy)
            (<[1%nat := Worker.mk (Worker.id w1_busy) "Offline" None
                          (Worker.current_task_id w1_busy)]> (workers db_busy))) ∧
  step (UpdateWorkerStatus "w1" (Some "Ready")) db_busy = (Uncaught TypeError, db_busy) ∧
  step (UpdateWorkerStatus "w1" (Some "Busy")) db_busy = (Uncaught TypeError, db_busy).
Proof.
  assert (Hk : keys_unique db_busy = true) by reflexivity.
  assert (Hf : find_by Worker.id "w1" (workers db_busy) = Some (1%nat, w1_busy))
    by reflexivity.
  split; [exact Hk|]. split; [exact Hf|].
  exact (update_worker_status_outcomes "w1" 1 w1_busy db_busy Hk Hf).
Defined.

(** ** Handlers that never commit *)

(** X16: for a request that carries a JSON body, a status update, a
    completion and a heartbeat never get as far as their commit: for an
    unknown id the reply is "not found" with code 404, for a known id
    the call ends in an uncaught [TypeError], and in both cases the
    database is left as it was, whatever status and progress are
    sent. *)
Theorem timestamp_writers_never_commit d task_id status progress worker_id :
  (find_by RenderTask.id task_id (tasks d) = None →
   step (UpdateStatus task_id status progress) d
     = (Replied (error "Task not found", 404), d) ∧
   step (CompleteTask task_id) d = (Replied (error "Task not found", 404), d)) ∧
  (is_Some (find_by RenderTask.id task_id (tasks d)) →
   step (UpdateStatus task_id status progress) d = (Uncaught TypeError, d) ∧
   step (CompleteTask task_id) d = (Uncaught TypeError, d)) ∧
  (find_by Worker.id worker_id (workers d) = None →
   step (Heartbeat worker_id) d = (Replied (error "Worker not found", 404), d)) ∧
  (is_Some (find_by Worker.id worker_id (workers d)) →
   step (Heartbeat worker_id) d = (Uncaught TypeError, d)).
Proof.
  unfold step, handler.
  rewrite serve_update_render_status, serve_complete_render, serve_worker_heartbeat.
  split; [|split; [|split]].
  - intros Hn. by rewrite Hn.
  - intros [p Hp]. by rewrite Hp.
  - intros Hn. by rewrite Hn.
  - intros [p Hp]. by rewrite Hp.
Qed.

Lemma timestamp_writers_never_commit_witness :
  is_Some (find_by RenderTask.id "t2" (tasks db_busy)) ∧
  is_Some (find_by Worker.id "w1" (workers db_busy)) ∧
  step (UpdateStatus "t2" (Some "Completed") (Some 1%Q)) db_busy
    = (Uncaught TypeError, db_busy) ∧
  step (CompleteTask "t2") db_busy = (Uncaught TypeError, db_busy) ∧
  step (Heartbeat "w1") db_busy = (Uncaught TypeError, db_busy).
Proof.
  assert (Ht : is_Some (find_by RenderTask.id "t2" (tasks db_busy)))
    by (vm_compute; eauto).
  assert (Hw : is_Some (find_by Worker.id "w1" (workers db_busy)))
    by (vm_compute; eauto).
  destruct (timestamp_writers_never_commit db_busy "t2" (Some "Completed")
              (Some 1%Q) "w1") as (_ & Hknown & _ & Hbeat).
  split; [exact Ht|]. split; [exact Hw|].
  split; [exact (proj1 (Hknown Ht))|]. split; [exact (proj2 (Hknown Ht))|].
  exact (Hbeat Hw).
Defined.

(** ** What the sweep does *)

Lemma rendering_row_found d t :
  t ∈ tasks d → is_rendering t →
  is_Some (first (select_tasks (status_eq "rendering") (tasks d))).
Proof.
  intros Ht Hr. destruct (first _) eqn:E; [eauto|].
  by destruct (proj1 (first_select_rendering_None _) E t Ht).
Qed.

Lemma for_failed_workers_stalled env k failed d t :
  t ∈ tasks d → is_rendering t →
  for_failed_workers env k failed (open_session d) = Ok tt (open_session d).
Proof.
  intros Ht Hr. revert k. induction failed as [|[j w] rest IH]; intros k; [done|].
  cbn [for_failed_workers]. unfold mbind, M_bind.
  rewrite worker_request_task_unfold.
  destruct (rendering_row_found d t Ht Hr) as [p ->]. apply IH.
Qed.

(** X18: on a database with unique keys where no task is rendering, some
    worker is Ready and a task is waiting, a sweep that finds workers
    with an expired heartbeat binds the dispatcher's choice to the first
    of them, and does nothing for the others: the stale worker is given
    work, it is not retired. *)
Theorem sweep_binds_first_stale_worker now env d j wk rest i t :
  keys_unique d = true →
  (∀ x, x ∈ tasks d → ¬ is_rendering x) →
  select_workers is_ready (workers d) ≠ [] →
  select_workers (heartbeat_expired now) (workers d) = (j, wk) :: rest →
  next_pending (tasks d) = Some (i, t) →
  sweep now env d = bound i j (Worker.id wk) t d.
Proof.
  intros Hk Hnone Hready Hstale Hn.
  assert (Hj : workers d !! j = Some wk).
  { apply elem_of_indexed.
    assert (Hin : (j, wk) ∈ select_workers (heartbeat_expired now) (workers d))
      by (rewrite Hstale; left).
    unfold select_workers in Hin. apply list_elem_of_filter in Hin. tauto. }
  assert (Hf : find_by Worker.id (Worker.id wk) (workers d) = Some (j, wk)).
  { apply find_by_unique; [|done]. by apply keys_unique_NoDup in Hk as [_ ?]. }
  unfold sweep, check_worker_failures.
  cbv beta iota delta [mbind M_bind mret M_ret query_workers read_workers open_session].
  cbn [working workers]. rewrite Hstale. fold (open_session d).
  cbn [for_failed_workers]. unfold mbind, M_bind.
  rewrite worker_request_task_unfold.
  rewrite (proj2 (first_select_rendering_None _) Hnone).
  rewrite bool_decide_eq_false_2
    by (intros E; apply length_zero_nil in E; by apply Hready).
  unfold dispatch. rewrite Hf, Hn, keys_unique_bound, Hk.
  destruct (next_pending_Some _ _ _ Hn) as (Hi & _).
  erewrite for_failed_workers_stalled; [done| |].
  - apply list_elem_of_lookup. exists i. by apply bound_task_lookup.
  - by rewrite decide_True.
Qed.

Lemma sweep_binds_first_stale_worker_witness :
  keys_unique db_stale = true ∧
  (∀ x, x ∈ tasks db_stale → ¬ is_rendering x) ∧
  select_workers is_ready (workers db_stale) ≠ [] ∧
  select_workers (heartbeat_expired 100) (workers db_stale)
    = [(0%nat, Worker.mk "w1" "Ready" (Some 0) None)] ∧
  next_pending (tasks db_stale)
    = Some (1%nat, task_row "t7" "pending" "HIGH" 3 None) ∧
  sweep 100 (λ _, (100, "u")) db_stale
    = bound 1 0 "w1" (task_row "t7" "pending" "HIGH" 3 None) db_stale.
Proof.
  assert (Hk : keys_unique db_stale = true) by reflexivity.
  assert (Hnone : ∀ x, x ∈ tasks db_stale → ¬ is_rendering x).
  { intros x Hx. unfold db_stale in Hx. cbn [tasks] in Hx.
    apply elem_of_cons in Hx as [->|Hx]; [discriminate|].
    apply list_elem_of_singleton in Hx as ->. discriminate. }
  assert (Hready : select_workers is_ready (workers db_stale) ≠ []) by discriminate.
  assert (Hstale : select_workers (heartbeat_expired 100) (workers db_stale)
                   = [(0%nat, Worker.mk "w1" "Ready" (Some 0) None)]) by reflexivity.
  assert (Hn : next_pending (tasks db_stale)
               = Some (1%nat, task_row "t7" "pending" "HIGH" 3 None)) by reflexivity.
  split; [exact Hk|]. split; [exact Hnone|]. split; [exact Hready|].
  split; [exact Hstale|]. split; [exact Hn|].
  exact (sweep_binds_first_stale_worker 100 (λ _, (100, "u")) db_stale 0
           (Worker.mk "w1" "Ready" (Some 0) None) [] 1
           (task_row "t7" "pending" "HIGH" 3 None) Hk Hnone Hready Hstale Hn).
Defined.
